(** * Conversion service ([backend/server.py]): model and properties

    The service is one Flask handler, [convert_file].  It is embedded here as
    a function over an explicit world (the files on disk and the lines
    printed so far), with the exceptions of the [try] block as a sum type.
    The third-party collaborators the handler calls ([pdf2docx], the
    [python-docx] reader, the serialiser of the ReportLab canvas and the
    Unicode folding step of [secure_filename]) are parameters of the
    development. *)

From Stdlib Require Import ZArith NArith List Ascii String Lia ZifyNat ZifyN.
From stdpp Require Import gmap strings list pretty.

Local Open Scope Z_scope.

(** ** Python strings

    A [str] is a [string]; the operations of the standard library that the
    handler uses are defined on the list of its characters. *)

Definition chars (s : string) : list ascii := list_ascii_of_string s.
Definition str (l : list ascii) : string := string_of_list_ascii l.

(** [split_by p l] cuts [l] at every character satisfying [p]; empty fields
    are kept, so the result always has one field more than there are
    separators. *)
Fixpoint split_by (p : ascii → bool) (l : list ascii) : list (list ascii) :=
  match l with
  | [] => [[]]
  | c :: l' =>
      if p c then [] :: split_by p l'
      else match split_by p l' with
           | [] => [[c]]
           | w :: ws => (c :: w) :: ws
           end
  end.

(** [s.split(sep)] for a one-character separator. *)
Definition str_split (sep : ascii) (s : string) : list string :=
  str <$> split_by (Ascii.eqb sep) (chars s).

(** [s.split(sep)[0]]: the text before the first separator. *)
Definition str_split_0 (sep : ascii) (s : string) : string :=
  hd "" (str_split sep s).

(** [needle in hay]. *)
Fixpoint mentions (needle hay : string) : bool :=
  String.prefix needle hay
  || match hay with
     | EmptyString => false
     | String _ hay' => mentions needle hay'
     end.

(** White space of an ASCII [str]: TAB, LF, VT, FF, CR, FS, GS, RS, US and the
    space. *)
Definition isspace (c : ascii) : bool :=
  let n := nat_of_ascii c in
  ((9 <=? n) && (n <=? 13) || (28 <=? n) && (n <=? 32))%nat.

Definition nonempty (w : list ascii) : bool :=
  match w with [] => false | _ => true end.

(** [s.split()]: fields between runs of white space, none of them empty. *)
Definition split_ws (l : list ascii) : list (list ascii) :=
  List.filter nonempty (split_by isspace l).

(** [sep.join(ws)]. *)
Fixpoint join_with (sep : list ascii) (ws : list (list ascii)) : list ascii :=
  match ws with
  | [] => []
  | [w] => w
  | w :: ws' => w ++ sep ++ join_with sep ws'
  end.

(** [s.replace(a, b)] for single characters. *)
Definition replace_char (a b : ascii) (l : list ascii) : list ascii :=
  (λ c, if Ascii.eqb c a then b else c) <$> l.

Fixpoint lstrip (p : ascii → bool) (l : list ascii) : list ascii :=
  match l with
  | [] => []
  | c :: l' => if p c then lstrip p l' else l
  end.

(** [s.strip(cs)]: the characters of [cs] are removed at both ends. *)
Definition strip (p : ascii → bool) (l : list ascii) : list ascii :=
  rev (lstrip p (rev (lstrip p l))).

(** ** [werkzeug.utils.secure_filename] on a POSIX host *)

(** The class [[A-Za-z0-9_.-]] of [_filename_ascii_strip_re]. *)
Definition filename_safe_char (c : ascii) : bool :=
  let n := nat_of_ascii c in
  ((65 <=? n) && (n <=? 90) || (97 <=? n) && (n <=? 122)
   || (48 <=? n) && (n <=? 57) || (n =? 95) || (n =? 46) || (n =? 45))%nat.

Definition dot_or_underscore (c : ascii) : bool :=
  Ascii.eqb c "." || Ascii.eqb c "_".

(** ** [posixpath] *)

Definition ends_with_sep (l : list ascii) : bool :=
  match last l with
  | Some c => Ascii.eqb c "/"
  | None => false
  end.

Definition starts_with_sep (l : list ascii) : bool :=
  match l with
  | c :: _ => Ascii.eqb c "/"
  | [] => false
  end.

(** [os.path.join(a, b)]. *)
Definition path_join (a b : string) : string :=
  if starts_with_sep (chars b) then b
  else if nonempty (chars a) && negb (ends_with_sep (chars a)) then a +:+ "/" +:+ b
  else a +:+ b.

(** [p.rfind(c) + 1]: the length of the shortest prefix of [l] that holds
    every occurrence of [c]. *)
Fixpoint after_last (c : ascii) (l : list ascii) : nat :=
  match l with
  | [] => 0
  | x :: l' =>
      match after_last c l' with
      | O => if Ascii.eqb x c then 1 else 0
      | S n => S (S n)
      end
  end%nat.

(** [os.path.basename(p)]. *)
Definition basename (p : string) : string :=
  str (drop (after_last "/" (chars p)) (chars p)).

(** [os.path.splitext(p)]: the extension starts at the last dot of the last
    component, unless only dots come before it in that component. *)
Definition splitext (p : string) : string * string :=
  let l := chars p in
  let sep_end := after_last "/" l in
  let dot_end := after_last "." l in
  if (sep_end <? dot_end)%nat
     && existsb (λ c, negb (Ascii.eqb c ".")) (drop sep_end (take (dot_end - 1) l))
  then (str (take (dot_end - 1) l), str (drop (dot_end - 1) l))
  else (p, "").

(** Path resolution without symbolic links: the stack of directory names
    reached after walking the components of a path; empty components and
    [.] stay in place, [..] goes to the parent. *)
Definition components (p : string) : list string :=
  str <$> split_by (Ascii.eqb "/") (chars p).

Definition walk (stack : list string) (seg : string) : list string :=
  if decide (seg = "" ∨ seg = ".") then stack
  else if decide (seg = "..") then removelast stack
  else stack ++ [seg].

Definition resolve (p : string) : list string :=
  fold_left walk (components p) [].

(** [p] names the directory [dir] itself or something below it. *)
Definition within (dir p : string) : Prop :=
  resolve dir `prefix_of` resolve p.


(** ** [uuid.uuid4().hex]

    The handler draws one UUID per conversion.  The draw is an input of the
    model: the 128-bit integer [u] of the UUID.  [hex] is ['%032x' % u]. *)

Definition hex_digit (d : N) : ascii :=
  nth (N.to_nat d) (chars "0123456789abcdef") "0"%char.

Fixpoint hex_digits (n : nat) (u : N) : list ascii :=
  match n with
  | O => []
  | S n' => hex_digits n' (u / 16)%N ++ [hex_digit (u mod 16)%N]
  end.

Definition uuid_hex (u : N) : string := str (hex_digits 32 u).

(** ** The ReportLab canvas

    [Canvas] keeps the content stream of the page being drawn ([_code]) and
    the pages already closed.  [setFont] (for a built-in font such as
    Helvetica) and [drawString] each append an operator to the current
    stream; [showPage] closes the page and starts an empty stream; [save]
    runs [showPage] when the current stream is not empty ("If there is
    current data a ShowPage is executed automatically") and writes the
    document. *)

Inductive pdf_op : Type :=
  | SetFont (psfontname : string) (size : Z)
  | DrawString (x y : Z) (text : string).

Record Canvas : Type := mkCanvas {
  cv_filename : string;
  cv_pages : list (list pdf_op);
  cv_code : list pdf_op
}.

Definition new_canvas (filename : string) : Canvas :=
  mkCanvas filename [] [].

Definition setFont (psfontname : string) (size : Z) (c : Canvas) : Canvas :=
  mkCanvas (cv_filename c) (cv_pages c) (cv_code c ++ [SetFont psfontname size]).

Definition drawString (x y : Z) (text : string) (c : Canvas) : Canvas :=
  mkCanvas (cv_filename c) (cv_pages c) (cv_code c ++ [DrawString x y text]).

Definition showPage (c : Canvas) : Canvas :=
  mkCanvas (cv_filename c) (cv_pages c ++ [cv_code c]) [].

(** The pages of the document that [save] writes. *)
Definition saved_pages (c : Canvas) : list (list pdf_op) :=
  match cv_code c with
  | [] => cv_pages c
  | _ :: _ => cv_pages (showPage c)
  end.

Definition is_draw (op : pdf_op) : bool :=
  match op with DrawString _ _ _ => true | SetFont _ _ => false end.

(** The text-drawing operators of a document, page after page. *)
Definition draw_ops (pages : list (list pdf_op)) : list pdf_op :=
  List.filter is_draw (concat pages).

(** ** The loop of the DOCX to PDF branch *)

(** One iteration of [for para in doc.paragraphs]; the state is
    [y_position] and the canvas. *)
Definition draw_paragraph (st : Z * Canvas) (text : string) : Z * Canvas :=
  let '(y_position, pdf) := st in
  let pdf := drawString 50 y_position text pdf in
  let y_position := y_position - 20 in
  if y_position <? 50
  then (800, setFont "Helvetica" 12 (showPage pdf))
  else (y_position, pdf).

(** From [canvas.Canvas(converted_path)] to the canvas handed to
    [pdf.save()]. *)
Definition docx_to_pdf_canvas (converted_path : string) (paragraphs : list string)
  : Canvas :=
  let pdf := new_canvas converted_path in
  let pdf := setFont "Helvetica" 12 pdf in
  snd (fold_left draw_paragraph paragraphs (800, pdf)).

(** Number of lines a page takes before the loop breaks the page: offsets
    800, 780, ..., 60. *)
Definition lines_per_page : nat := 38.

(** ** World, exceptions and responses *)

Definition bytes : Type := list Byte.byte.

Record World : Type := mkWorld {
  files : gmap string bytes;
  stdout : list string
}.

(** A computation runs in a world and ends with a value or with a raised
    exception, kept as its message [str(e)]. *)
Definition M (A : Type) : Type := World → (string + A) * World.

Definition raise {A} (e : string) : M A := λ w, (inl e, w).

#[global] Instance M_ret : MRet M := λ A a w, (inr a, w).

#[global] Instance M_bind : MBind M := λ A B k m w,
  match m w with
  | (inl e, w') => (inl e, w')
  | (inr a, w') => k a w'
  end.

Definition print (line : string) : M unit :=
  λ w, (inr tt, mkWorld (files w) (stdout w ++ [line])).

Definition path_exists (path : string) : M bool :=
  λ w, (inr (bool_decide (is_Some (files w !! path))), w).

(** [open(path, "rb").read()]. *)
Definition read_file (path : string) : M bytes :=
  λ w, match files w !! path with
       | Some data => (inr data, w)
       | None => (inl ("[Errno 2] No such file or directory: '" +:+ path +:+ "'"), w)
       end.

(** The error raised when [data] is written to [path], if any.  A path with
    a trailing separator names a directory and cannot be opened for writing.
    Every other refusal is the operating system's and is given by
    [disk_error], from the files on disk, the path and the data: a name or
    a path that is too long, a missing permission, a full disk. *)
Definition write_error (disk_error : gmap string bytes → string → bytes → option string)
    (disk : gmap string bytes) (path : string) (data : bytes) : option string :=
  if ends_with_sep (chars path)
  then Some ("[Errno 21] Is a directory: '" +:+ path +:+ "'")
  else disk_error disk path data.

(** [open(path, "wb")] followed by the write.  A write that is refused
    raises and leaves the disk as it was. *)
Definition write_file (disk_error : gmap string bytes → string → bytes → option string)
    (path : string) (data : bytes) : M unit :=
  λ w, match write_error disk_error (files w) path data with
       | Some e => (inl e, w)
       | None => (inr tt, mkWorld (<[path := data]> (files w)) (stdout w))
       end.

(** [os.path.getsize(path)]. *)
Definition getsize (path : string) : M N :=
  data ← read_file path; mret (N.of_nat (length data)).

Record FileStorage : Type := mkFile {
  file_filename : string;
  file_stream : bytes
}.

(** The parts of the request the handler reads: [request.files.get("file")]
    and [request.form.get("type")]. *)
Record Request : Type := mkRequest {
  req_file : option FileStorage;
  req_type : option string
}.

Inductive Response : Type :=
  | JsonError (error : string) (status : Z)
  | SendFile (path download_name mimetype : string) (body : bytes).

Definition status_code (r : Response) : Z :=
  match r with
  | JsonError _ status => status
  | SendFile _ _ _ _ => 200
  end.

(** What [pdf2docx] does with the bytes of a source file. *)
Inductive conv_outcome : Type :=
  | ConvRaises (message : string)
  | ConvWrites (docx : bytes)
  | ConvNoOutput.

Definition docx_mimetype : string :=
  "application/vnd.openxmlformats-officedocument.wordprocessingml.document".

(** ** The handler *)

Module Server.

Section Service.

(** The collaborators of the service.  [nfkd_ascii] is the first step of
    [secure_filename]: NFKD normalisation followed by
    [encode("ascii", "ignore")].  [pdf2docx] is the PDF to DOCX converter,
    [docx_paragraphs] gives the paragraph texts of a DOCX file or the message
    of the exception [Document] raises, [pdf_render] is the serialisation
    of the pages of a canvas.  [pdf2docx] and [pdf_render] are the two
    libraries as they answer while one request is handled: both stamp what
    they write with the time of writing, so that two requests are served by
    two functions.  [BASE_DIR] is the directory of the script and
    [disk_error] the refusals of the disk (see [write_error]). *)
Variable nfkd_ascii : string → string.
Variable pdf2docx : bytes → conv_outcome.
Variable docx_paragraphs : bytes → string + list string.
Variable pdf_render : list (list pdf_op) → bytes.
Variable BASE_DIR : string.
Variable disk_error : gmap string bytes → string → bytes → option string.

Definition secure_filename (filename : string) : string :=
  let l := chars (nfkd_ascii filename) in
  let l := replace_char "/" " " l in
  let l := join_with (chars "_") (split_ws l) in
  str (strip dot_or_underscore (List.filter filename_safe_char l)).

Definition UPLOAD_FOLDER : string := path_join BASE_DIR "uploads".
Definition CONVERTED_FOLDER : string := path_join BASE_DIR "converted".

(** [file.save(dst)]. *)
Definition file_save (file : FileStorage) (dst : string) : M unit :=
  write_file disk_error dst (file_stream file).

(** Truth value of [request.form.get("type")]: [None] and the empty string
    are false. *)
Definition truthy (v : option string) : bool :=
  match v with
  | Some s => nonempty (chars s)
  | None => false
  end.

(** [Converter(filepath)], [cv.convert(converted_path, start=0, end=None)],
    [cv.close()]. *)
Definition Converter_convert (filepath converted_path : string) : M unit :=
  data ← read_file filepath;
  match pdf2docx data with
  | ConvRaises e => raise e
  | ConvWrites docx => write_file disk_error converted_path docx
  | ConvNoOutput => mret tt
  end.

(** [Document(filepath).paragraphs], as texts. *)
Definition Document (filepath : string) : M (list string) :=
  data ← read_file filepath;
  match docx_paragraphs data with
  | inl e => raise e
  | inr paragraphs => mret paragraphs
  end.

(** [pdf.save()]. *)
Definition canvas_save (pdf : Canvas) : M unit :=
  write_file disk_error (cv_filename pdf) (pdf_render (saved_pages pdf)).

(** The name of the converted file without its extension:
    [f"{filename.split('.')[0]}-{uuid.uuid4().hex}"]. *)
Definition unique_filename (filename : string) (u : N) : string :=
  str_split_0 "." filename +:+ "-" +:+ uuid_hex u.

(** The end of the [try] block, from "Ensure converted file exists before
    sending". *)
Definition send_converted (conversion_type : option string)
    (converted_path : string) : M Response :=
  found ← (if nonempty (chars converted_path)
           then path_exists converted_path else mret false);
  if found : bool then
    print ("Sending file: " +:+ converted_path);;
    size ← getsize converted_path;
    print ("File size: " +:+ pretty size +:+ " bytes");;
    body ← read_file converted_path;
    mret (SendFile converted_path (basename converted_path)
            (if bool_decide (conversion_type = Some "docx-to-pdf")
             then "application/pdf" else docx_mimetype)
            body)
  else raise ("Converted file not found: " +:+ converted_path).

(** The body of the [try] block; [u] is the UUID drawn for this request. *)
Definition convert_file_try (u : N) (req : Request) : M Response :=
  match req_file req with
  | None => mret (JsonError "No file uploaded" 400)
  | Some file =>
      let conversion_type := req_type req in
      if negb (truthy conversion_type)
      then mret (JsonError "Conversion type not specified" 400)
      else
        let filename := secure_filename (file_filename file) in
        let filepath := path_join UPLOAD_FOLDER filename in
        file_save file filepath;;
        print ("Uploaded file saved at: " +:+ filepath);;
        let unique_filename := unique_filename filename u in
        if bool_decide (conversion_type = Some "pdf-to-docx") then
          let converted_path :=
            path_join CONVERTED_FOLDER (unique_filename +:+ ".docx") in
          print ("Converting PDF to DOCX: " +:+ filepath +:+ " -> " +:+ converted_path);;
          Converter_convert filepath converted_path;;
          send_converted conversion_type converted_path
        else if bool_decide (conversion_type = Some "docx-to-pdf") then
          let converted_path :=
            path_join CONVERTED_FOLDER (unique_filename +:+ ".pdf") in
          print ("Converting DOCX to PDF: " +:+ filepath +:+ " -> " +:+ converted_path);;
          paragraphs ← Document filepath;
          canvas_save (docx_to_pdf_canvas converted_path paragraphs);;
          send_converted conversion_type converted_path
        else mret (JsonError "Invalid conversion type" 400)
  end.

(** [convert_file]: the [try] block and its [except Exception] clause. *)
Definition convert_file (u : N) (req : Request) (w : World) : Response * World :=
  match convert_file_try u req w with
  | (inr response, w') => (response, w')
  | (inl e, w') =>
      (JsonError ("Conversion failed: " +:+ e) 500,
       mkWorld (files w') (stdout w' ++ ["Error during conversion: " +:+ e]))
  end.

End Service.

End Server.

Import Server.

(** ** A concrete environment

    Used to run the handler on examples: the folding step keeps the ASCII
    characters of the name (what NFKD folding does to a name that is
    already ASCII), the DOCX reader takes every byte for a one-character
    paragraph, the serialiser writes one byte per page and one per
    operator, and the PDF converter copies its input, except that it writes
    nothing for an empty file, an empty document for a file that starts
    with a zero byte, and fails on a file that starts with [0xff].  The
    disk refuses a file name of more than 255 bytes. *)

Definition ascii_only (s : string) : string :=
  str (List.filter (λ c, (nat_of_ascii c <? 128)%nat) (chars s)).

Definition toy_pdf2docx (data : bytes) : conv_outcome :=
  match data with
  | [] => ConvNoOutput
  | b :: _ =>
      if Byte.eqb b Byte.x00 then ConvWrites []
      else if Byte.eqb b Byte.xff then ConvRaises "not a PDF"
      else ConvWrites data
  end.

Definition toy_paragraphs (data : bytes) : string + list string :=
  inr ((λ b, String (ascii_of_byte b) "") <$> data).

Definition toy_render (pages : list (list pdf_op)) : bytes :=
  concat ((λ page, Byte.x0c :: ((λ _, Byte.x2e) <$> page)) <$> pages).

Definition toy_disk_error (disk : gmap string bytes) (path : string) (data : bytes)
  : option string :=
  if (255 <? length (chars (basename path)))%nat
  then Some ("[Errno 36] File name too long: '" +:+ path +:+ "'")
  else None.

Definition toy_convert_file : N → Request → World → Response * World :=
  convert_file ascii_only toy_pdf2docx toy_paragraphs toy_render "/srv/backend"
    toy_disk_error.





Definition empty_world : World := mkWorld ∅ [].

(** ** Vocabulary of the properties *)

(** Every operator sent to a canvas so far, closed pages first. *)
Definition all_ops (c : Canvas) : list pdf_op :=
  concat (cv_pages c) ++ cv_code c.

(** Number of text-drawing operators on a page. *)
Definition lines_on (page : list pdf_op) : nat :=
  length (List.filter is_draw page).

(** Vertical offset of the [k]-th paragraph of a document. *)
Definition line_offset (k : nat) : Z :=
  800 - 20 * Z.of_nat (k mod lines_per_page).

Definition uses_font_12 (op : pdf_op) : Prop :=
  match op with
  | SetFont psfontname size => psfontname = "Helvetica" ∧ size = 12
  | DrawString _ _ _ => True
  end.

(** A text-drawing operator at the left margin, between the bottom margin
    and the top offset. *)
Definition in_margins (op : pdf_op) : Prop :=
  match op with
  | DrawString x y _ => x = 50 ∧ 60 ≤ y ≤ 800
  | SetFont _ _ => True
  end.

(** A page whose first operator selects Helvetica 12. *)
Definition starts_with_font (page : list pdf_op) : Prop :=
  head page = Some (SetFont "Helvetica" 12).


(** A directory path given without trailing separator. *)
Definition plain_dir (dir : string) : Prop :=
  nonempty (chars dir) = true ∧ ends_with_sep (chars dir) = false.

(** The content type [send_file] is given. *)
Definition mimetype_of (conversion_type : option string) : string :=
  if bool_decide (conversion_type = Some "docx-to-pdf")
  then "application/pdf" else docx_mimetype.

(** The line printed when a conversion starts: which conversion, from
    which upload, to which artifact. *)
Definition conversion_line (conversion_type : option string)
    (filepath converted_path : string) : string :=
  (if bool_decide (conversion_type = Some "pdf-to-docx")
   then "Converting PDF to DOCX: " else "Converting DOCX to PDF: ")
  +:+ filepath +:+ " -> " +:+ converted_path.

(** The world once the upload is stored and reported. *)
Definition stored (w : World) (filepath : string) (data : bytes) : World :=
  mkWorld (<[filepath := data]> (files w))
    (stdout w ++ ["Uploaded file saved at: " +:+ filepath]).

(** A response with the files of the world it leaves. *)
Definition outcome (r : Response * World) : Response * gmap string bytes :=
  (r.1, files r.2).

(** Requests the properties are run on. *)

(** A file part without a type field. *)
Definition untyped_request : Request :=
  mkRequest (Some (mkFile "notes.docx" [Byte.x41])) None.

(** A PDF on which the converter fails. *)
Definition bad_pdf_request : Request :=
  mkRequest (Some (mkFile "scan.pdf" [Byte.xff])) (Some "pdf-to-docx").

(** A DOCX reader that fails on an empty file. *)
Definition strict_paragraphs (data : bytes) : string + list string :=
  match data with
  | [] => inl "Package not found"
  | _ :: _ => toy_paragraphs data
  end.

Definition empty_docx_request : Request :=
  mkRequest (Some (mkFile "notes.docx" [])) (Some "docx-to-pdf").

(** A disk on which the artifact path of [lost_pdf_request] with UUID 5 is
    already taken. *)
Definition stale_world : World :=
  mkWorld
    {[ "/srv/backend/converted/scan-00000000000000000000000000000005.docx"
       := [Byte.x53] ]} [].

(** The toy environment with the strict DOCX reader. *)
Definition strict_convert_file : N → Request → World → Response * World :=
  convert_file ascii_only toy_pdf2docx strict_paragraphs toy_render "/srv/backend"
    toy_disk_error.


Definition docx_request : Request :=
  mkRequest (Some (mkFile "notes.docx" [Byte.x41; Byte.x42])) (Some "docx-to-pdf").

Definition pdf_request : Request :=
  mkRequest (Some (mkFile "scan.pdf" [Byte.x25; Byte.x50])) (Some "pdf-to-docx").

(** A PDF for which the converter writes an empty document. *)
Definition blank_pdf_request : Request :=
  mkRequest (Some (mkFile "scan.pdf" [Byte.x00])) (Some "pdf-to-docx").

(** A PDF for which the converter writes nothing. *)
Definition lost_pdf_request : Request :=
  mkRequest (Some (mkFile "scan.pdf" [])) (Some "pdf-to-docx").

Definition odd_type_request : Request :=
  mkRequest (Some (mkFile "notes.txt" [Byte.x41])) (Some "pdf-to-txt").

Definition no_file_request : Request :=
  mkRequest None (Some "pdf-to-txt").

(** A file whose name sanitizes to the empty string. *)
Definition unnamed_file_request : Request :=
  mkRequest (Some (mkFile ".." [Byte.x41])) (Some "pdf-to-txt").

(** * Properties *)

Ltac Zify.zify_post_hook ::= Z.div_mod_to_equations.

#[local] Arguments Nat.modulo : simpl never.
#[local] Arguments Nat.div : simpl never.

(** ** Pagination of the DOCX to PDF loop *)

Lemma concat_saved_pages c : concat (saved_pages c) = all_ops c.
Proof.
  unfold saved_pages, all_ops, showPage. simpl.
  destruct (cv_code c) as [|op code]; simpl.
  - by rewrite app_nil_r.
  - rewrite concat_app. simpl. by rewrite app_nil_r.
Qed.

Lemma saved_pages_pending c :
  cv_code c ≠ [] → saved_pages c = cv_pages c ++ [cv_code c].
Proof. unfold saved_pages, showPage. simpl. by destruct (cv_code c). Qed.

Lemma all_ops_drawString x y text c :
  all_ops (drawString x y text c) = all_ops c ++ [DrawString x y text].
Proof. unfold all_ops. simpl. by rewrite app_assoc. Qed.

Lemma all_ops_setFont name size c :
  all_ops (setFont name size c) = all_ops c ++ [SetFont name size].
Proof. unfold all_ops. simpl. by rewrite app_assoc. Qed.

Lemma all_ops_showPage c : all_ops (showPage c) = all_ops c.
Proof.
  unfold all_ops. simpl. rewrite concat_app. simpl.
  by rewrite !app_nil_r.
Qed.

(** One iteration, with the offset written as a line number [j] on the
    current page: the page is broken after line 37, counted from 0. *)
Lemma draw_paragraph_step (j : nat) pdf text :
  (j < 38)%nat →
  draw_paragraph (800 - 20 * Z.of_nat j, pdf) text =
  if (j =? 37)%nat
  then (800 - 20 * Z.of_nat 0,
        setFont "Helvetica" 12 (showPage (drawString 50 (800 - 20 * Z.of_nat j) text pdf)))
  else (800 - 20 * Z.of_nat (S j),
        drawString 50 (800 - 20 * Z.of_nat j) text pdf).
Proof.
  intros Hj. unfold draw_paragraph.
  destruct (Z.ltb_spec (800 - 20 * Z.of_nat j - 20) 50) as [Hy|Hy];
    destruct (Nat.eqb_spec j 37) as [Hj'|Hj']; try lia.
  - reflexivity.
  - f_equal. lia.
Qed.

Lemma loop_draws paragraphs : ∀ (j : nat) pdf,
  (j < 38)%nat →
  List.filter is_draw
    (all_ops (snd (fold_left draw_paragraph paragraphs (800 - 20 * Z.of_nat j, pdf)))) =
  List.filter is_draw (all_ops pdf) ++
  imap (λ k text, DrawString 50 (800 - 20 * Z.of_nat ((j + k) mod 38)) text) paragraphs.
Proof.
  induction paragraphs as [|text ps IH]; intros j pdf Hj; cbn [fold_left].
  - simpl. by rewrite app_nil_r.
  - rewrite draw_paragraph_step by done. rewrite imap_cons.
    replace ((j + 0) mod 38)%nat with j by lia.
    destruct (Nat.eqb_spec j 37) as [->|Hne].
    + rewrite (IH 0%nat) by lia.
      rewrite all_ops_setFont, all_ops_showPage, all_ops_drawString.
      rewrite !List.filter_app. simpl. rewrite app_nil_r, <- app_assoc. simpl.
      do 2 f_equal. apply imap_ext. intros k x _. simpl.
      do 3 f_equal. lia.
    + rewrite (IH (S j)) by lia.
      rewrite all_ops_drawString, List.filter_app. simpl.
      rewrite <- app_assoc. simpl.
      do 2 f_equal. apply imap_ext. intros k x _. simpl.
      do 3 f_equal. lia.
Qed.

Lemma loop_fonts paragraphs : ∀ (j : nat) pdf,
  (j < 38)%nat →
  Forall uses_font_12 (all_ops pdf) →
  Forall uses_font_12
    (all_ops (snd (fold_left draw_paragraph paragraphs (800 - 20 * Z.of_nat j, pdf)))).
Proof.
  induction paragraphs as [|text ps IH]; intros j pdf Hj Hpdf; cbn [fold_left].
  - done.
  - rewrite draw_paragraph_step by done.
    destruct (Nat.eqb_spec j 37) as [->|Hne].
    + apply (IH 0%nat); [lia|].
      rewrite all_ops_setFont, all_ops_showPage, all_ops_drawString.
      apply Forall_app; split; [apply Forall_app; split; [done|]|];
        by repeat constructor.
    + apply (IH (S j)); [lia|].
      rewrite all_ops_drawString.
      apply Forall_app; split; [done|]. by repeat constructor.
Qed.

Lemma loop_pages paragraphs : ∀ (j : nat) pdf,
  (j < 38)%nat →
  lines_on (cv_code pdf) = j →
  cv_code pdf ≠ [] →
  let pdf' := snd (fold_left draw_paragraph paragraphs (800 - 20 * Z.of_nat j, pdf)) in
  lines_on <$> cv_pages pdf' =
    (lines_on <$> cv_pages pdf) ++ repeat 38%nat ((j + length paragraphs) / 38)%nat
  ∧ lines_on (cv_code pdf') = ((j + length paragraphs) mod 38)%nat
  ∧ cv_code pdf' ≠ []
  ∧ cv_filename pdf' = cv_filename pdf.
Proof.
  induction paragraphs as [|text ps IH]; intros j pdf Hj Hcode Hne; cbn [fold_left].
  - simpl. replace ((j + 0) / 38)%nat with 0%nat by lia.
    replace ((j + 0) mod 38)%nat with j by lia.
    simpl. by rewrite app_nil_r.
  - rewrite draw_paragraph_step by done.
    destruct (Nat.eqb_spec j 37) as [->|Hj'].
    + destruct (IH 0%nat (setFont "Helvetica" 12
                 (showPage (drawString 50 (800 - 20 * Z.of_nat 37) text pdf))))
        as (Hpages & Hlast & Hnonempty & Hname); [lia|done|by simpl|].
      cbn [cv_pages cv_code cv_filename setFont showPage drawString length]
        in Hpages, Hlast, Hnonempty, Hname |- *.
      split_and!; [|rewrite Hlast; lia|done|done].
      rewrite Hpages, fmap_app.
      replace ((37 + S (length ps)) / 38)%nat with (S ((0 + length ps) / 38)) by lia.
      rewrite <- app_assoc. cbn [repeat fmap list_fmap app]. do 2 f_equal.
      unfold lines_on in *. rewrite List.filter_app, length_app, Hcode. done.
    + destruct (IH (S j) (drawString 50 (800 - 20 * Z.of_nat j) text pdf))
        as (Hpages & Hlast & Hnonempty & Hname); [lia| |simpl; by destruct (cv_code pdf)|].
      { simpl. unfold lines_on in *.
        rewrite List.filter_app, length_app, Hcode. simpl. lia. }
      cbn [cv_pages cv_code cv_filename setFont showPage drawString length]
        in Hpages, Hlast, Hnonempty, Hname |- *.
      split_and!; [|rewrite Hlast; f_equal; lia|done|done].
      rewrite Hpages. do 3 f_equal. lia.
Qed.

(** What the loop leaves for [pdf.save()]: the text-drawing operators are
    the paragraphs in order, the [k]-th at [line_offset k]; only Helvetica 12
    is selected; every page but the last has [lines_per_page] lines. *)
Lemma docx_to_pdf_canvas_spec converted_path paragraphs :
  let pages := saved_pages (docx_to_pdf_canvas converted_path paragraphs) in
  draw_ops pages = imap (λ k text, DrawString 50 (line_offset k) text) paragraphs
  ∧ Forall uses_font_12 (concat pages)
  ∧ lines_on <$> pages =
      repeat lines_per_page (length paragraphs / lines_per_page)%nat
      ++ [(length paragraphs mod lines_per_page)%nat]
  ∧ cv_filename (docx_to_pdf_canvas converted_path paragraphs) = converted_path.
Proof.
  unfold docx_to_pdf_canvas, draw_ops, lines_per_page.
  set (pdf0 := setFont "Helvetica" 12 (new_canvas converted_path)).
  change 800 with (800 - 20 * Z.of_nat 0).
  destruct (loop_pages paragraphs 0 pdf0) as (Hpages & Hlast & Hnonempty & Hname);
    [lia|done|done|].
  simpl in Hpages, Hlast, Hname. split_and!.
  - rewrite concat_saved_pages, (loop_draws paragraphs 0) by lia. done.
  - rewrite concat_saved_pages. apply (loop_fonts paragraphs 0); [lia|].
    by repeat constructor.
  - rewrite saved_pages_pending by done.
    rewrite fmap_app, Hpages. simpl. by rewrite Hlast.
  - done.
Qed.

(** The document has one page more than the number of page breaks. *)
Lemma docx_to_pdf_page_count converted_path paragraphs :
  length (saved_pages (docx_to_pdf_canvas converted_path paragraphs)) =
  S (length paragraphs / lines_per_page).
Proof.
  destruct (docx_to_pdf_canvas_spec converted_path paragraphs) as (_ & _ & H & _).
  apply (f_equal length) in H.
  rewrite length_fmap, length_app, repeat_length in H. simpl in H. lia.
Qed.



(** ** Strings and paths *)

Lemma chars_str l : chars (str l) = l.
Proof. apply list_ascii_of_string_of_list_ascii. Qed.

Lemma str_chars s : str (chars s) = s.
Proof. apply string_of_list_ascii_of_string. Qed.

Lemma chars_app a b : chars (a +:+ b) = chars a ++ chars b.
Proof.
  induction a as [|c a IH]; [done|].
  change (c :: chars (a +:+ b) = c :: chars a ++ chars b). by rewrite IH.
Qed.

Lemma str_app l k : str (l ++ k) = str l +:+ str k.
Proof.
  induction l as [|c l IH]; [done|].
  change (String c (str (l ++ k)) = String c (str l +:+ str k)). by rewrite IH.
Qed.

Lemma chars_inj a b : chars a = chars b → a = b.
Proof. intros H. by rewrite <- (str_chars a), H, str_chars. Qed.

Lemma chars_nil s : chars s = [] → s = "".
Proof. intros H. apply chars_inj. by rewrite H. Qed.

Lemma split_by_nonempty p l : split_by p l ≠ [].
Proof. destruct l as [|c l]; simpl; [done|]. destruct (p c); [done|]. by destruct (split_by p l). Qed.

Lemma split_by_no_sep p l :
  Forall (λ c, p c = false) l → split_by p l = [l].
Proof.
  induction 1 as [|c l Hc _ IH]; simpl; [done|]. by rewrite Hc, IH.
Qed.

Lemma split_by_app_sep p l c r :
  p c = true → split_by p (l ++ c :: r) = split_by p l ++ split_by p r.
Proof.
  intros Hc. induction l as [|x l IH]; simpl.
  - by rewrite Hc.
  - destruct (p x); [by rewrite IH|].
    rewrite IH. pose proof (split_by_nonempty p l).
    by destruct (split_by p l).
Qed.

(** The field before the first separator holds no separator. *)
Lemma split_by_hd p l :
  Forall (λ c, p c = false) (hd [] (split_by p l)).
Proof.
  induction l as [|x l IH]; simpl; [done|].
  destruct (p x) eqn:Hx; simpl; [done|].
  pose proof (split_by_nonempty p l).
  destruct (split_by p l); [done|]. simpl in *. by constructor.
Qed.

Lemma lstrip_suffix p l : ∃ k, l = k ++ lstrip p l.
Proof.
  induction l as [|c l [k IH]]; simpl.
  - by exists [].
  - destruct (p c); [|by exists []].
    exists (c :: k). simpl. by f_equal.
Qed.

Lemma lstrip_hd p l c l' : lstrip p l = c :: l' → p c = false.
Proof.
  induction l as [|x l IH]; simpl; [done|].
  destruct (p x) eqn:Hx; [done|]. by intros [= <- _].
Qed.

(** [strip] keeps a segment of the string that does not start with a
    stripped character. *)
Lemma strip_segment p l : ∃ k1 k2, lstrip p l = strip p l ++ k2 ∧ l = k1 ++ strip p l ++ k2.
Proof.
  unfold strip. destruct (lstrip_suffix p l) as [k1 H1].
  destruct (lstrip_suffix p (rev (lstrip p l))) as [k2 H2].
  exists k1, (rev k2).
  assert (lstrip p l = rev (lstrip p (rev (lstrip p l))) ++ rev k2) as H.
  { rewrite <- rev_app_distr, <- H2. by rewrite rev_involutive. }
  split; [done|]. by rewrite <- H.
Qed.

Lemma strip_hd p l c l' : strip p l = c :: l' → p c = false.
Proof.
  intros H. destruct (strip_segment p l) as (k1 & k2 & Hl & _).
  rewrite H in Hl. simpl in Hl. by apply lstrip_hd in Hl.
Qed.

Lemma strip_Forall (P : ascii → Prop) p l : Forall P l → Forall P (strip p l).
Proof.
  intros H. destruct (strip_segment p l) as (k1 & k2 & _ & Hl).
  rewrite Hl in H. apply Forall_app in H as [_ H]. by apply Forall_app in H as [H _].
Qed.

Lemma filter_Forall (p : ascii → bool) l :
  Forall (λ c, p c = true) (List.filter p l).
Proof.
  apply List.Forall_forall. intros c Hc. by apply List.filter_In in Hc as [_ Hc].
Qed.

Lemma after_last_le c l : (after_last c l ≤ length l)%nat.
Proof.
  induction l as [|x l IH]; simpl; [done|].
  destruct (after_last c l); [destruct (Ascii.eqb x c)|]; lia.
Qed.

Lemma after_last_absent c l :
  Forall (λ x, x ≠ c) l → after_last c l = 0%nat.
Proof.
  induction 1 as [|x l Hx _ IH]; simpl; [done|].
  rewrite IH. by apply Ascii.eqb_neq in Hx as ->.
Qed.

Lemma after_last_app_absent c l r :
  Forall (λ x, x ≠ c) r → after_last c (l ++ r) = after_last c l.
Proof.
  intros Hr. induction l as [|x l IH]; simpl.
  - by apply after_last_absent.
  - by rewrite IH.
Qed.

Lemma after_last_app_found c l r :
  Forall (λ x, x ≠ c) r → after_last c (l ++ c :: r) = S (length l).
Proof.
  intros Hr. induction l as [|x l IH]; simpl.
  - rewrite after_last_absent by done. by rewrite Ascii.eqb_refl.
  - by rewrite IH.
Qed.

Lemma basename_child dir name :
  Forall (λ c, c ≠ "/"%char) (chars name) →
  basename (dir +:+ "/" +:+ name) = name.
Proof.
  intros Hname. unfold basename. rewrite !chars_app.
  change (chars "/" ++ chars name) with ("/"%char :: chars name).
  rewrite after_last_app_found by done.
  replace (S (length (chars dir))) with (length (chars dir) + 1)%nat by lia.
  rewrite <- drop_drop, drop_app_length. simpl. unfold drop. apply str_chars.
Qed.

(** [splitext] on a path whose last component is [stem], a dot and [ext],
    when [stem] holds a character other than a dot and neither part holds
    a dot or a separator. *)
Lemma splitext_child dir stem ext :
  Forall (λ c, c ≠ "/"%char ∧ c ≠ "."%char) (chars stem) →
  Forall (λ c, c ≠ "/"%char ∧ c ≠ "."%char) (chars ext) →
  stem ≠ "" →
  splitext (dir +:+ "/" +:+ stem +:+ "." +:+ ext) =
  (dir +:+ "/" +:+ stem, "." +:+ ext).
Proof.
  intros Hstem Hext Hne. unfold splitext.
  apply Forall_and in Hstem as [Hstem_sep Hstem_dot].
  apply Forall_and in Hext as [Hext_sep Hext_dot].
  rewrite !chars_app.
  change (chars "/" ++ chars stem ++ chars "." ++ chars ext)
    with ("/"%char :: chars stem ++ "."%char :: chars ext).
  rewrite (after_last_app_found "/").
  2:{ apply Forall_app. split; [done|]. by constructor. }
  replace (chars dir ++ "/"%char :: chars stem ++ "."%char :: chars ext)
    with ((chars dir ++ "/"%char :: chars stem) ++ "."%char :: chars ext)
    by by rewrite <- app_assoc.
  rewrite (after_last_app_found ".") by done.
  rewrite length_app. cbn [length].
  replace (S (length (chars dir)) <? S (length (chars dir) + S (length (chars stem))))%nat
    with true by (symmetry; apply Nat.ltb_lt; lia).
  replace (S (length (chars dir) + S (length (chars stem))) - 1)%nat
    with (length (chars dir ++ "/"%char :: chars stem))
    by (rewrite length_app; simpl; lia).
  rewrite take_app_length, drop_app_length.
  replace (S (length (chars dir))) with (length (chars dir) + 1)%nat by lia.
  rewrite <- drop_drop, drop_app_length.
  change (drop 1 ("/"%char :: chars stem)) with (chars stem).
  assert (existsb (λ c, negb (Ascii.eqb c ".")) (chars stem) = true) as ->.
  { destruct (chars stem) as [|c l] eqn:Hc; [by apply chars_nil in Hc|].
    apply Forall_cons in Hstem_dot as [Hdot _]. simpl.
    by apply Ascii.eqb_neq in Hdot as ->. }
  cbn [andb]. f_equal.
  - rewrite str_app, str_chars.
    change ("/"%char :: chars stem) with (chars "/" ++ chars stem).
    by rewrite str_app, !str_chars.
  - change ("."%char :: chars ext) with (chars ("." +:+ ext)). apply str_chars.
Qed.

Lemma path_join_plain_dir dir name :
  plain_dir dir → starts_with_sep (chars name) = false →
  path_join dir name = dir +:+ "/" +:+ name.
Proof. intros [Hne Hsep] Hname. unfold path_join. by rewrite Hname, Hne, Hsep. Qed.

Lemma path_join_last a b c l :
  starts_with_sep (chars b) = false → chars b = l ++ [c] →
  ∃ l', chars (path_join a b) = l' ++ [c].
Proof.
  intros Hb Hl. unfold path_join. rewrite Hb.
  destruct (_ && _); rewrite !chars_app, Hl.
  - eexists. rewrite !app_assoc. reflexivity.
  - eexists. rewrite !app_assoc. reflexivity.
Qed.

Lemma snoc_plain_dir p l c :
  chars p = l ++ [c] → c ≠ "/"%char → plain_dir p.
Proof.
  intros Hp Hc. unfold plain_dir, ends_with_sep. rewrite Hp, last_snoc. split.
  - by destruct l.
  - by apply Ascii.eqb_neq.
Qed.

Lemma snoc_not_dir p l c :
  chars p = l ++ [c] → c ≠ "/"%char → ends_with_sep (chars p) = false.
Proof. intros Hp Hc. by eapply snoc_plain_dir. Qed.

Lemma components_child dir name :
  Forall (λ c, c ≠ "/"%char) (chars name) →
  components (dir +:+ "/" +:+ name) = components dir ++ [name].
Proof.
  intros Hname. unfold components.
  rewrite !chars_app. change (chars "/" ++ chars name) with ("/"%char :: chars name).
  rewrite split_by_app_sep by done.
  rewrite (split_by_no_sep _ (chars name)).
  - rewrite fmap_app. simpl. by rewrite str_chars.
  - eapply Forall_impl; [done|]. intros c Hc. cbn beta in *.
    apply Ascii.eqb_neq. congruence.
Qed.

Lemma resolve_child dir name :
  Forall (λ c, c ≠ "/"%char) (chars name) → name ≠ ".." →
  within dir (dir +:+ "/" +:+ name).
Proof.
  intros Hname Hdots. unfold within, resolve.
  rewrite components_child by done.
  rewrite fold_left_app. simpl. unfold walk.
  repeat case_decide; [done|done|]. by apply prefix_app_r.
Qed.

Section Sanitizing.

Variable nfkd_ascii : string → string.
Variable BASE_DIR : string.

Local Abbreviation secure_filename := (secure_filename nfkd_ascii).
Local Abbreviation UPLOAD_FOLDER := (UPLOAD_FOLDER BASE_DIR).
Local Abbreviation CONVERTED_FOLDER := (CONVERTED_FOLDER BASE_DIR).

Lemma secure_filename_safe filename :
  Forall (λ c, filename_safe_char c = true) (chars (secure_filename filename)).
Proof.
  unfold secure_filename. rewrite chars_str.
  apply strip_Forall, filter_Forall.
Qed.

Lemma secure_filename_hd filename c l :
  chars (secure_filename filename) = c :: l → dot_or_underscore c = false.
Proof. unfold secure_filename. rewrite chars_str. apply strip_hd. Qed.

Lemma secure_filename_no_sep filename :
  Forall (λ c, c ≠ "/"%char) (chars (secure_filename filename)).
Proof.
  eapply Forall_impl; [apply secure_filename_safe|].
  intros c Hc ->. done.
Qed.

Lemma secure_filename_not_dots filename :
  secure_filename filename ≠ ".." ∧ secure_filename filename ≠ ".".
Proof.
  split; intros H; apply (f_equal chars) in H;
    by apply secure_filename_hd in H.
Qed.

Lemma secure_filename_relative filename :
  starts_with_sep (chars (secure_filename filename)) = false.
Proof.
  pose proof (secure_filename_no_sep filename) as H.
  destruct (chars (secure_filename filename)) as [|c l]; [done|].
  simpl. apply Forall_cons in H as [H _]. by apply Ascii.eqb_neq.
Qed.

Lemma UPLOAD_FOLDER_plain : plain_dir UPLOAD_FOLDER.
Proof.
  destruct (path_join_last BASE_DIR "uploads" "s" (chars "upload")) as [l Hl];
    [done|done|].
  by eapply snoc_plain_dir.
Qed.

Lemma CONVERTED_FOLDER_plain : plain_dir CONVERTED_FOLDER.
Proof.
  destruct (path_join_last BASE_DIR "converted" "d" (chars "converte")) as [l Hl];
    [done|done|].
  by eapply snoc_plain_dir.
Qed.

Lemma chars_str_split_0 sep s :
  chars (str_split_0 sep s) = hd [] (split_by (Ascii.eqb sep) (chars s)).
Proof.
  unfold str_split_0, str_split.
  destruct (split_by (Ascii.eqb sep) (chars s)); simpl; [done|apply chars_str].
Qed.

Lemma split_by_hd_prefix p l : ∃ r, l = hd [] (split_by p l) ++ r.
Proof.
  induction l as [|x l [r IH]]; simpl; [by exists []|].
  destruct (p x); simpl; [by eexists|].
  pose proof (split_by_nonempty p l).
  destruct (split_by p l) as [|w ws]; [done|]. simpl in *.
  exists r. by f_equal.
Qed.

(** The sanitized name is not empty exactly when the upload path names a
    file rather than the upload directory. *)
Lemma upload_path_not_dir filename :
  secure_filename filename ≠ "" →
  ends_with_sep (chars (path_join UPLOAD_FOLDER (secure_filename filename))) = false.
Proof.
  intros Hne. pose proof (secure_filename_no_sep filename) as Hsep.
  destruct (chars (secure_filename filename)) as [|c0 l0] eqn:Hc using rev_ind.
  { by apply chars_nil in Hc. }
  clear IHl0. destruct (path_join_last UPLOAD_FOLDER (secure_filename filename) c0 l0)
    as [l' Hl']; [apply secure_filename_relative|done|].
  eapply snoc_not_dir; [done|].
  by apply Forall_app in Hsep as [_ [Hsep _]%Forall_cons].
Qed.

Lemma upload_path_dir filename :
  secure_filename filename = "" →
  ends_with_sep (chars (path_join UPLOAD_FOLDER (secure_filename filename))) = true.
Proof.
  intros ->. rewrite path_join_plain_dir by (done || apply UPLOAD_FOLDER_plain).
  rewrite !chars_app. unfold ends_with_sep.
  change (chars "/" ++ chars "") with ["/"%char]. by rewrite last_snoc.
Qed.

(** The name of a converted file starts with a character of the sanitized
    name or with the hyphen, and holds neither a separator nor a dot. *)
Lemma unique_filename_chars filename u :
  ∃ stem, chars (unique_filename (secure_filename filename) u)
          = stem ++ "-"%char :: hex_digits 32 u
    ∧ Forall (λ c, filename_safe_char c = true ∧ c ≠ "."%char) stem.
Proof.
  unfold unique_filename. rewrite !chars_app, chars_str_split_0.
  unfold uuid_hex. rewrite chars_str. eexists. split; [done|].
  pose proof (secure_filename_safe filename) as Hsafe.
  destruct (split_by_hd_prefix (Ascii.eqb ".") (chars (secure_filename filename)))
    as [r Hr].
  rewrite Hr in Hsafe. apply Forall_app in Hsafe as [Hsafe _].
  pose proof (split_by_hd (Ascii.eqb ".") (chars (secure_filename filename))) as Hdot.
  apply Forall_and. split; [done|].
  eapply Forall_impl; [exact Hdot|]. intros c Hc. cbn beta in Hc.
  apply Ascii.eqb_neq in Hc. congruence.
Qed.

Lemma upload_path_eq filename :
  path_join UPLOAD_FOLDER (secure_filename filename) =
  UPLOAD_FOLDER +:+ "/" +:+ secure_filename filename.
Proof.
  apply path_join_plain_dir;
    [apply UPLOAD_FOLDER_plain|apply secure_filename_relative].
Qed.

(** C4. Whatever file name the client sends, the path the upload is saved
    at is the upload directory followed by one separator and the sanitized
    name, which holds no separator and is neither [.] nor [..]: resolving
    the path never leaves the upload directory. *)
Theorem upload_path_within_upload_folder (original : string) :
  let filename := secure_filename original in
  let filepath := path_join UPLOAD_FOLDER filename in
  filepath = UPLOAD_FOLDER +:+ "/" +:+ filename
  ∧ Forall (λ c, c ≠ "/"%char) (chars filename)
  ∧ filename ≠ ".." ∧ filename ≠ "."
  ∧ within UPLOAD_FOLDER filepath.
Proof.
  intros filename filepath. subst filename filepath.
  pose proof (secure_filename_not_dots original) as [Hdd Hd].
  pose proof (secure_filename_no_sep original) as Hsep.
  split_and!; try done.
  - apply upload_path_eq.
  - rewrite upload_path_eq. by apply resolve_child.
Qed.

End Sanitizing.

(** ** The random token *)

Lemma hex_digit_elem d : In (hex_digit d) (chars "0123456789abcdef").
Proof.
  unfold hex_digit.
  destruct (Nat.lt_ge_cases (N.to_nat d) (length (chars "0123456789abcdef")))
    as [Hlt|Hge].
  - by apply nth_In.
  - rewrite nth_overflow by done. by left.
Qed.


Lemma hex_digits_length n u : length (hex_digits n u) = n.
Proof.
  revert u. induction n as [|n IH]; intros u; simpl; [done|].
  rewrite length_app, IH. simpl. lia.
Qed.

Lemma hex_digits_Forall (P : ascii → Prop) n u :
  Forall P (chars "0123456789abcdef") → Forall P (hex_digits n u).
Proof.
  intros HP. revert u. induction n as [|n IH]; intros u; simpl; [done|].
  apply Forall_app. split; [done|]. constructor; [|done].
  apply (proj1 (List.Forall_forall _ _) HP), hex_digit_elem.
Qed.



(** ** Runs of the handler *)

Lemma write_file_ok disk_error path data w :
  write_error disk_error (files w) path data = None →
  write_file disk_error path data w =
  (inr tt, mkWorld (<[path := data]> (files w)) (stdout w)).
Proof. intros H. unfold write_file. by rewrite H. Qed.

Lemma write_file_refused disk_error path data w e :
  write_error disk_error (files w) path data = Some e →
  write_file disk_error path data w = (inl e, w).
Proof. intros H. unfold write_file. by rewrite H. Qed.

Lemma write_error_dir disk_error disk path data :
  ends_with_sep (chars path) = true →
  write_error disk_error disk path data =
  Some ("[Errno 21] Is a directory: '" +:+ path +:+ "'").
Proof. intros H. unfold write_error. by rewrite H. Qed.

Lemma write_error_None disk_error disk path data :
  write_error disk_error disk path data = None →
  ends_with_sep (chars path) = false.
Proof. unfold write_error. by destruct (ends_with_sep (chars path)). Qed.

Lemma bind_run {A B} (m : M A) (k : A → M B) w :
  (m ≫= k) w = match m w with
               | (inl e, w') => (inl e, w')
               | (inr a, w') => k a w'
               end.
Proof. reflexivity. Qed.

Lemma print_run line w :
  print line w = (inr tt, mkWorld (files w) (stdout w ++ [line])).
Proof. reflexivity. Qed.

Section Runs.

Variable nfkd_ascii : string → string.
Variable pdf2docx : bytes → conv_outcome.
Variable docx_paragraphs : bytes → string + list string.
Variable pdf_render : list (list pdf_op) → bytes.
Variable BASE_DIR : string.
Variable disk_error : gmap string bytes → string → bytes → option string.

Local Abbreviation secure_filename := (secure_filename nfkd_ascii).
Local Abbreviation UPLOAD_FOLDER := (UPLOAD_FOLDER BASE_DIR).
Local Abbreviation CONVERTED_FOLDER := (CONVERTED_FOLDER BASE_DIR).
Local Abbreviation Converter_convert := (Converter_convert pdf2docx disk_error).
Local Abbreviation Document := (Document docx_paragraphs).
Local Abbreviation canvas_save := (canvas_save pdf_render disk_error).
Local Abbreviation write_error := (write_error disk_error).
Local Abbreviation convert_file_try :=
  (convert_file_try nfkd_ascii pdf2docx docx_paragraphs pdf_render BASE_DIR disk_error).
Local Abbreviation convert_file :=
  (convert_file nfkd_ascii pdf2docx docx_paragraphs pdf_render BASE_DIR disk_error).

Lemma send_converted_found conversion_type path body w :
  path ≠ "" → files w !! path = Some body →
  send_converted conversion_type path w =
  (inr (SendFile path (basename path) (mimetype_of conversion_type) body),
   mkWorld (files w)
     ((stdout w ++ ["Sending file: " +:+ path])
      ++ ["File size: " +:+ pretty (N.of_nat (length body)) +:+ " bytes"])).
Proof.
  intros Hne Hfile. unfold send_converted.
  assert (nonempty (chars path) = true) as ->.
  { destruct (chars path) eqn:Hc; [by apply chars_nil in Hc|done]. }
  rewrite bind_run. unfold path_exists at 1. rewrite Hfile.
  rewrite bool_decide_eq_true_2 by eauto.
  rewrite bind_run, print_run, bind_run.
  unfold getsize. rewrite bind_run. unfold read_file at 1. cbn [files].
  rewrite Hfile. cbn [mret M_ret]. rewrite bind_run, print_run, bind_run.
  unfold read_file. cbn [files]. by rewrite Hfile.
Qed.

Lemma send_converted_missing conversion_type path w :
  files w !! path = None →
  send_converted conversion_type path w =
  (inl ("Converted file not found: " +:+ path), w).
Proof.
  intros Hfile. unfold send_converted. rewrite bind_run.
  destruct (nonempty (chars path)); [|done].
  unfold path_exists. rewrite Hfile.
  rewrite bool_decide_eq_false_2; [done|]. by intros [? ?].
Qed.

(** A request that passes both presence checks and whose upload the disk
    accepts: the upload is stored, and the conversion type decides. *)
Lemma convert_file_try_stored u req w file :
  req_file req = Some file →
  truthy (req_type req) = true →
  write_error (files w)
    (path_join UPLOAD_FOLDER (secure_filename (file_filename file)))
    (file_stream file) = None →
  let filename := secure_filename (file_filename file) in
  let filepath := path_join UPLOAD_FOLDER filename in
  let w1 := stored w filepath (file_stream file) in
  convert_file_try u req w =
  if bool_decide (req_type req = Some "pdf-to-docx") then
    let converted_path :=
      path_join CONVERTED_FOLDER (unique_filename filename u +:+ ".docx") in
    (print ("Converting PDF to DOCX: " +:+ filepath +:+ " -> " +:+ converted_path);;
     Converter_convert filepath converted_path;;
     send_converted (req_type req) converted_path) w1
  else if bool_decide (req_type req = Some "docx-to-pdf") then
    let converted_path :=
      path_join CONVERTED_FOLDER (unique_filename filename u +:+ ".pdf") in
    (print ("Converting DOCX to PDF: " +:+ filepath +:+ " -> " +:+ converted_path);;
     paragraphs ← Document filepath;
     canvas_save (docx_to_pdf_canvas converted_path paragraphs);;
     send_converted (req_type req) converted_path) w1
  else (inr (JsonError "Invalid conversion type" 400), w1).
Proof.
  intros Hfile Htype Hsave. cbv zeta.
  unfold Server.convert_file_try. rewrite Hfile, Htype. cbn [negb].
  rewrite bind_run. unfold file_save.
  rewrite write_file_ok by done.
  rewrite bind_run, print_run. cbn [files stdout].
  destruct (bool_decide (req_type req = Some "pdf-to-docx")); [reflexivity|].
  destruct (bool_decide (req_type req = Some "docx-to-pdf")); reflexivity.
Qed.

(** When [file.save] is refused, the request ends in the [except] clause
    and the disk is as it was. *)
Lemma convert_file_refused u req w file e :
  req_file req = Some file →
  truthy (req_type req) = true →
  write_error (files w)
    (path_join UPLOAD_FOLDER (secure_filename (file_filename file)))
    (file_stream file) = Some e →
  convert_file u req w =
  (JsonError ("Conversion failed: " +:+ e) 500,
   mkWorld (files w) (stdout w ++ ["Error during conversion: " +:+ e])).
Proof.
  intros Hfile Htype Hsave.
  unfold Server.convert_file, Server.convert_file_try.
  rewrite Hfile, Htype. cbn [negb].
  rewrite bind_run. unfold file_save.
  by rewrite (write_file_refused _ _ _ _ e).
Qed.

(** When the sanitized name is empty the upload path is the upload
    directory itself, and [file.save] raises. *)
Lemma convert_file_not_stored u req w file :
  req_file req = Some file →
  truthy (req_type req) = true →
  secure_filename (file_filename file) = "" →
  ∃ e, convert_file u req w =
       (JsonError ("Conversion failed: " +:+ e) 500,
        mkWorld (files w) (stdout w ++ ["Error during conversion: " +:+ e])).
Proof.
  intros Hfile Htype Hname. eexists.
  apply (convert_file_refused u req w file); [done..|].
  apply write_error_dir. by apply upload_path_dir.
Qed.

(** An upload that is stored has a sanitized name that is not empty. *)
Lemma stored_name_nonempty disk filename data :
  write_error disk (path_join UPLOAD_FOLDER (secure_filename filename)) data = None →
  secure_filename filename ≠ "".
Proof.
  intros Hsave Hname. apply write_error_None in Hsave.
  by rewrite (upload_path_dir nfkd_ascii BASE_DIR filename Hname) in Hsave.
Qed.

Lemma converted_path_props filename u ext e c :
  chars ext = e ++ [c] → c ≠ "/"%char →
  let name := unique_filename (secure_filename filename) u +:+ ext in
  let converted_path := path_join CONVERTED_FOLDER name in
  converted_path = CONVERTED_FOLDER +:+ "/" +:+ name
  ∧ ends_with_sep (chars converted_path) = false
  ∧ converted_path ≠ "".
Proof.
  intros Hext Hc name converted_path. subst name converted_path.
  destruct (unique_filename_chars nfkd_ascii filename u) as (stem & Hchars & Hstem).
  assert (starts_with_sep
            (chars (unique_filename (secure_filename filename) u +:+ ext)) = false)
    as Hrel.
  { rewrite chars_app, Hchars. destruct Hstem as [|c0 stem [Hc0 _] _]; [done|].
    simpl. apply Ascii.eqb_neq. by intros ->. }
  destruct (path_join_last CONVERTED_FOLDER
              (unique_filename (secure_filename filename) u +:+ ext) c
              (chars (unique_filename (secure_filename filename) u) ++ e))
    as [l' Hl']; [done|by rewrite chars_app, Hext, app_assoc|].
  split_and!.
  - apply path_join_plain_dir; [apply CONVERTED_FOLDER_plain|done].
  - by eapply snoc_not_dir.
  - intros Hempty. rewrite Hempty in Hl'. by destruct l'.
Qed.

(** An unrecognized conversion type is rejected once the upload is stored. *)
Lemma convert_file_invalid_type u req w file :
  req_file req = Some file →
  truthy (req_type req) = true →
  req_type req ≠ Some "pdf-to-docx" →
  req_type req ≠ Some "docx-to-pdf" →
  write_error (files w)
    (path_join UPLOAD_FOLDER (secure_filename (file_filename file)))
    (file_stream file) = None →
  convert_file u req w =
  (JsonError "Invalid conversion type" 400,
   stored w (path_join UPLOAD_FOLDER (secure_filename (file_filename file)))
     (file_stream file)).
Proof.
  intros Hfile Htype Hpdf Hdocx Hname. unfold Server.convert_file.
  rewrite (convert_file_try_stored u req w file) by done.
  by rewrite !bool_decide_eq_false_2.
Qed.

(** The PDF to DOCX branch. *)
Lemma convert_file_pdf_to_docx u req w file :
  req_file req = Some file →
  req_type req = Some "pdf-to-docx" →
  write_error (files w)
    (path_join UPLOAD_FOLDER (secure_filename (file_filename file)))
    (file_stream file) = None →
  let filename := secure_filename (file_filename file) in
  let filepath := path_join UPLOAD_FOLDER filename in
  let converted_path :=
    path_join CONVERTED_FOLDER (unique_filename filename u +:+ ".docx") in
  let stored_files := <[filepath := file_stream file]> (files w) in
  outcome (convert_file u req w) =
  match pdf2docx (file_stream file) with
  | ConvRaises e => (JsonError ("Conversion failed: " +:+ e) 500, stored_files)
  | ConvWrites docx =>
      match write_error stored_files converted_path docx with
      | Some e => (JsonError ("Conversion failed: " +:+ e) 500, stored_files)
      | None =>
          (SendFile converted_path (basename converted_path) docx_mimetype docx,
           <[converted_path := docx]> stored_files)
      end
  | ConvNoOutput =>
      match stored_files !! converted_path with
      | Some old =>
          (SendFile converted_path (basename converted_path) docx_mimetype old,
           stored_files)
      | None =>
          (JsonError ("Conversion failed: Converted file not found: " +:+ converted_path)
             500, stored_files)
      end
  end.
Proof.
  intros Hfile Htype Hname. cbv zeta.
  destruct (converted_path_props (file_filename file) u ".docx" (chars ".doc") "x")
    as (_ & Hnodir & Hnonempty); [done|done|].
  unfold Server.convert_file.
  rewrite (convert_file_try_stored u req w file) by (done || by rewrite Htype).
  rewrite Htype. rewrite bool_decide_eq_true_2 by done. cbv zeta.
  rewrite bind_run, print_run, bind_run.
  unfold Server.Converter_convert. rewrite bind_run.
  unfold read_file at 1. cbn [files stored]. rewrite lookup_insert_eq.
  destruct (pdf2docx (file_stream file)) as [e|docx|].
  - reflexivity.
  - destruct (write_error (<[_ := _]> (files w)) _ docx) as [e|] eqn:Hwrite.
    + by rewrite (write_file_refused _ _ _ _ e).
    + rewrite write_file_ok by done.
      erewrite send_converted_found; [reflexivity|done|].
      cbn [files]. apply lookup_insert_eq.
  - cbn [mret M_ret].
    destruct (<[_ := _]> (files w) !! path_join _ _) as [old|] eqn:Hold.
    + erewrite send_converted_found; [reflexivity|done|done].
    + rewrite send_converted_missing by done. reflexivity.
Qed.

(** The DOCX to PDF branch. *)
Lemma convert_file_docx_to_pdf u req w file :
  req_file req = Some file →
  req_type req = Some "docx-to-pdf" →
  write_error (files w)
    (path_join UPLOAD_FOLDER (secure_filename (file_filename file)))
    (file_stream file) = None →
  let filename := secure_filename (file_filename file) in
  let filepath := path_join UPLOAD_FOLDER filename in
  let converted_path :=
    path_join CONVERTED_FOLDER (unique_filename filename u +:+ ".pdf") in
  let stored_files := <[filepath := file_stream file]> (files w) in
  outcome (convert_file u req w) =
  match docx_paragraphs (file_stream file) with
  | inl e => (JsonError ("Conversion failed: " +:+ e) 500, stored_files)
  | inr paragraphs =>
      let pdf :=
        pdf_render (saved_pages (docx_to_pdf_canvas converted_path paragraphs)) in
      match write_error stored_files converted_path pdf with
      | Some e => (JsonError ("Conversion failed: " +:+ e) 500, stored_files)
      | None =>
          (SendFile converted_path (basename converted_path) "application/pdf" pdf,
           <[converted_path := pdf]> stored_files)
      end
  end.
Proof.
  intros Hfile Htype Hname. cbv zeta.
  destruct (converted_path_props (file_filename file) u ".pdf" (chars ".pd") "f")
    as (_ & Hnodir & Hnonempty); [done|done|].
  unfold Server.convert_file.
  rewrite (convert_file_try_stored u req w file) by (done || by rewrite Htype).
  rewrite Htype. rewrite bool_decide_eq_false_2 by done.
  rewrite bool_decide_eq_true_2 by done. cbv zeta.
  rewrite bind_run, print_run, bind_run.
  unfold Server.Document. rewrite bind_run.
  unfold read_file at 1. cbn [files stored]. rewrite lookup_insert_eq.
  destruct (docx_paragraphs (file_stream file)) as [e|paragraphs].
  - reflexivity.
  - cbn [mret M_ret]. rewrite bind_run. unfold Server.canvas_save.
    destruct (docx_to_pdf_canvas_spec
                (path_join CONVERTED_FOLDER
                   (unique_filename (secure_filename (file_filename file)) u +:+ ".pdf"))
                paragraphs) as (_ & _ & _ & ->).
    destruct (write_error (<[_ := _]> (files w)) _ _) as [e|] eqn:Hwrite.
    + by rewrite (write_file_refused _ _ _ _ e).
    + rewrite write_file_ok by done.
      erewrite send_converted_found; [reflexivity|done|].
      cbn [files]. apply lookup_insert_eq.
Qed.

Lemma convert_file_no_file u req w :
  req_file req = None →
  convert_file u req w = (JsonError "No file uploaded" 400, w).
Proof.
  intros Hfile. unfold Server.convert_file, Server.convert_file_try.
  by rewrite Hfile.
Qed.

Lemma convert_file_no_type u req w file :
  req_file req = Some file →
  truthy (req_type req) = false →
  convert_file u req w = (JsonError "Conversion type not specified" 400, w).
Proof.
  intros Hfile Htype. unfold Server.convert_file, Server.convert_file_try.
  by rewrite Hfile, Htype.
Qed.

(** Where a file response comes from: a stored upload of a recognized type,
    and an artifact that is on disk with the content sent. *)
Lemma convert_file_sent u req w path name mime body :
  (convert_file u req w).1 = SendFile path name mime body →
  ∃ file ext,
    req_file req = Some file
    ∧ secure_filename (file_filename file) ≠ ""
    ∧ path = path_join CONVERTED_FOLDER
               (unique_filename (secure_filename (file_filename file)) u +:+ ext)
    ∧ name = basename path
    ∧ files (convert_file u req w).2 !! path = Some body
    ∧ ((req_type req = Some "pdf-to-docx" ∧ ext = ".docx" ∧ mime = docx_mimetype
        ∧ (pdf2docx (file_stream file) = ConvWrites body
           ∨ pdf2docx (file_stream file) = ConvNoOutput
             ∧ is_Some (<[path_join UPLOAD_FOLDER (secure_filename (file_filename file))
                          := file_stream file]> (files w) !! path)))
       ∨ (req_type req = Some "docx-to-pdf" ∧ ext = ".pdf" ∧ mime = "application/pdf"
          ∧ ∃ paragraphs, docx_paragraphs (file_stream file) = inr paragraphs
              ∧ body = pdf_render (saved_pages (docx_to_pdf_canvas path paragraphs)))).
Proof.
  intros Hsent.
  destruct (req_file req) as [file|] eqn:Hfile;
    [|by rewrite convert_file_no_file in Hsent].
  destruct (truthy (req_type req)) eqn:Htruthy;
    [|by rewrite (convert_file_no_type u req w file) in Hsent].
  destruct (write_error (files w)
              (path_join UPLOAD_FOLDER (secure_filename (file_filename file)))
              (file_stream file)) as [e|] eqn:Hsave.
  { by rewrite (convert_file_refused u req w file e) in Hsent. }
  pose proof (stored_name_nonempty _ _ _ Hsave) as Hname.
  exists file.
  destruct (decide (req_type req = Some "pdf-to-docx")) as [Hpdf|Hpdf].
  { exists ".docx".
    pose proof (convert_file_pdf_to_docx u req w file Hfile Hpdf Hsave) as Hrun.
    cbv zeta in Hrun. unfold outcome in Hrun. rewrite Hsent in Hrun.
    destruct (pdf2docx (file_stream file)) as [e|docx|] eqn:Hconv.
    - done.
    - destruct (write_error (<[_ := _]> (files w)) _ docx); [done|].
      injection Hrun as -> -> -> -> Hfiles.
      split_and!; try done.
      + rewrite Hfiles. apply lookup_insert_eq.
      + left. eauto.
    - destruct (<[_ := _]> (files w) !! path_join _ _) as [old|] eqn:Hold; [|done].
      injection Hrun as -> -> -> -> Hfiles.
      split_and!; try done.
      + by rewrite Hfiles.
      + left. split_and!; try done. right. eauto. }
  destruct (decide (req_type req = Some "docx-to-pdf")) as [Hdocx|Hdocx].
  { exists ".pdf".
    pose proof (convert_file_docx_to_pdf u req w file Hfile Hdocx Hsave) as Hrun.
    cbv zeta in Hrun. unfold outcome in Hrun. rewrite Hsent in Hrun.
    destruct (docx_paragraphs (file_stream file)) as [e|paragraphs] eqn:Hdoc; [done|].
    destruct (write_error (<[_ := _]> (files w)) _ _); [done|].
    injection Hrun as -> -> -> -> Hfiles.
    split_and!; try done.
    - rewrite Hfiles. apply lookup_insert_eq.
    - right. split_and!; try done. by exists paragraphs. }
  by rewrite (convert_file_invalid_type u req w file) in Hsent.
Qed.

Lemma truthy_nonempty t : t ≠ "" → truthy (Some t) = true.
Proof.
  intros Ht. simpl. destruct (chars t) eqn:Hc; [by apply chars_nil in Hc|done].
Qed.

Lemma unique_filename_plain filename u :
  Forall (λ c, c ≠ "/"%char ∧ c ≠ "."%char)
    (chars (unique_filename (secure_filename filename) u))
  ∧ unique_filename (secure_filename filename) u ≠ "".
Proof.
  destruct (unique_filename_chars nfkd_ascii filename u) as (stem & Hchars & Hstem).
  split.
  - rewrite Hchars. apply Forall_app. split; [|constructor; [done|]].
    + eapply Forall_impl; [exact Hstem|]. intros c [Hsafe Hdot].
      split; [by intros ->|done].
    + apply hex_digits_Forall. by repeat constructor.
  - intros Hempty. rewrite Hempty in Hchars. by destruct stem.
Qed.

(** The two folders differ from their first character after the common
    prefix. *)
Lemma folders_apart a b : UPLOAD_FOLDER +:+ a ≠ CONVERTED_FOLDER +:+ b.
Proof.
  unfold Server.UPLOAD_FOLDER, Server.CONVERTED_FOLDER, path_join.
  change (starts_with_sep (chars "uploads")) with false.
  change (starts_with_sep (chars "converted")) with false. cbv iota.
  intros H. apply (f_equal chars) in H.
  destruct (_ && _); rewrite !chars_app, <- !app_assoc in H;
    apply app_inv_head in H; done.
Qed.


(** The path and the download name of an artifact, spelled out. *)
Lemma converted_path_name filename u ext e c :
  chars ext = e ++ [c] → c ≠ "/"%char →
  Forall (λ c, c ≠ "/"%char) (chars ext) →
  let name := unique_filename (secure_filename filename) u +:+ ext in
  let converted_path := path_join CONVERTED_FOLDER name in
  converted_path = CONVERTED_FOLDER +:+ "/" +:+ name
  ∧ basename converted_path = name.
Proof.
  intros Hext Hc Hsep name converted_path. subst name converted_path.
  destruct (converted_path_props filename u ext e c) as (Heq & _); [done..|].
  split; [done|]. rewrite Heq. apply basename_child.
  rewrite chars_app. apply Forall_app. split; [|done].
  destruct (unique_filename_plain filename u) as [Hplain _].
  eapply Forall_impl; [exact Hplain|]. by intros ? [? _].
Qed.

(** C1. A DOCX upload that is stored and parsed into N paragraphs, with
    type docx-to-pdf: the pages handed to [pdf.save()] hold exactly N
    text-drawing operators, the paragraphs in source order, the k-th at
    x = 50 and at the offset 800 lowered by 20 for every line already on its
    page.  Only Helvetica 12 is ever selected, and the page is broken after
    every [lines_per_page] lines.  When the disk accepts the artifact, the
    answer is the serialisation of these pages as application/pdf; when it
    refuses, the answer is a 500 error. *)
Theorem docx_paragraphs_drawn_in_order u req w file paragraphs :
  req_file req = Some file →
  req_type req = Some "docx-to-pdf" →
  write_error (files w)
    (path_join UPLOAD_FOLDER (secure_filename (file_filename file)))
    (file_stream file) = None →
  docx_paragraphs (file_stream file) = inr paragraphs →
  ∃ converted_path pages,
    converted_path =
      path_join CONVERTED_FOLDER
        (unique_filename (secure_filename (file_filename file)) u +:+ ".pdf")
    ∧ pages = saved_pages (docx_to_pdf_canvas converted_path paragraphs)
    ∧ length (draw_ops pages) = length paragraphs
    ∧ draw_ops pages = imap (λ k text, DrawString 50 (line_offset k) text) paragraphs
    ∧ Forall uses_font_12 (concat pages)
    ∧ lines_on <$> pages =
        repeat lines_per_page (length paragraphs / lines_per_page)%nat
        ++ [(length paragraphs mod lines_per_page)%nat]
    ∧ match write_error
              (<[path_join UPLOAD_FOLDER (secure_filename (file_filename file))
                 := file_stream file]> (files w))
              converted_path (pdf_render pages) with
      | None =>
          (convert_file u req w).1 =
            SendFile converted_path (basename converted_path) "application/pdf"
              (pdf_render pages)
          ∧ files (convert_file u req w).2 !! converted_path
            = Some (pdf_render pages)
      | Some e =>
          (convert_file u req w).1 = JsonError ("Conversion failed: " +:+ e) 500
      end.
Proof.
  intros Hfile Htype Hsave Hdoc.
  pose proof (convert_file_docx_to_pdf u req w file Hfile Htype Hsave) as Hrun.
  cbv zeta in Hrun. rewrite Hdoc in Hrun. unfold outcome in Hrun.
  eexists _, _. split; [reflexivity|]. split; [reflexivity|].
  destruct (docx_to_pdf_canvas_spec
              (path_join CONVERTED_FOLDER
                 (unique_filename (secure_filename (file_filename file)) u +:+ ".pdf"))
              paragraphs) as (Hdraws & Hfonts & Hpages & _).
  split_and!; try done.
  - by rewrite Hdraws, length_imap.
  - destruct (write_error (<[_ := _]> (files w)) _ _) as [e|].
    + by injection Hrun as Hresp _.
    + injection Hrun as Hresp Hfiles. split; [done|].
      rewrite Hfiles. apply lookup_insert_eq.
Qed.

(** C2, as amended. A file response is sent only for an artifact that is
    on disk, and its body is the content of that artifact; the size of the
    artifact is printed and not tested.  When the request has a file part
    and a recognized type and the artifact path holds no file once the
    handler is done, the response is a 500 error. *)
Theorem artifact_sent_only_if_it_exists u req w :
  (∀ path name mime body,
     (convert_file u req w).1 = SendFile path name mime body →
     files (convert_file u req w).2 !! path = Some body)
  ∧ (∀ file ext,
       req_file req = Some file →
       req_type req = Some "pdf-to-docx" ∧ ext = ".docx"
       ∨ req_type req = Some "docx-to-pdf" ∧ ext = ".pdf" →
       files (convert_file u req w).2
         !! path_join CONVERTED_FOLDER
              (unique_filename (secure_filename (file_filename file)) u +:+ ext)
         = None →
       ∃ e, (convert_file u req w).1 = JsonError ("Conversion failed: " +:+ e) 500).
Proof.
  split.
  - intros path name mime body Hsent.
    by destruct (convert_file_sent _ _ _ _ _ _ _ Hsent) as (? & ? & _ & _ & _ & _ & ? & _).
  - intros file ext Hfile Htype Hmissing.
    assert (truthy (req_type req) = true) as Htruthy
      by by destruct Htype as [[-> _]|[-> _]].
    destruct (write_error (files w)
                (path_join UPLOAD_FOLDER (secure_filename (file_filename file)))
                (file_stream file)) as [e|] eqn:Hsave.
    { exists e. by rewrite (convert_file_refused u req w file e). }
    destruct Htype as [[Htype ->]|[Htype ->]].
    + pose proof (convert_file_pdf_to_docx u req w file Hfile Htype Hsave) as Hrun.
      cbv zeta in Hrun. unfold outcome in Hrun.
      destruct (pdf2docx (file_stream file)) as [e|docx|].
      * injection Hrun as Hresp _. eauto.
      * destruct (write_error (<[_ := _]> (files w)) _ docx) as [e|].
        -- injection Hrun as Hresp _. eauto.
        -- injection Hrun as _ Hfiles.
           by rewrite Hfiles, lookup_insert_eq in Hmissing.
      * destruct (<[_ := _]> (files w) !! path_join _ _) as [old|] eqn:Hold.
        -- injection Hrun as _ Hfiles. by rewrite Hfiles, Hold in Hmissing.
        -- injection Hrun as Hresp _. rewrite Hresp.
           by eexists ("Converted file not found: " +:+ _).
    + pose proof (convert_file_docx_to_pdf u req w file Hfile Htype Hsave) as Hrun.
      cbv zeta in Hrun. unfold outcome in Hrun.
      destruct (docx_paragraphs (file_stream file)) as [e|paragraphs].
      * injection Hrun as Hresp _. eauto.
      * destruct (write_error (<[_ := _]> (files w)) _ _) as [e|].
        -- injection Hrun as Hresp _. eauto.
        -- injection Hrun as _ Hfiles.
           by rewrite Hfiles, lookup_insert_eq in Hmissing.
Qed.

(** C3. Whenever a file is sent, the conversion type is one of the two
    literals and decides both the extension of the artifact and the declared
    content type: [.pdf] with [application/pdf] for docx-to-pdf, [.docx] with
    the OOXML word-processing type for pdf-to-docx. *)
Theorem artifact_extension_and_mimetype_match_type u req w path name mime body :
  (convert_file u req w).1 = SendFile path name mime body →
  (req_type req = Some "docx-to-pdf"
   ∧ (splitext path).2 = ".pdf" ∧ (∃ stem, name = stem +:+ ".pdf")
   ∧ mime = "application/pdf")
  ∨ (req_type req = Some "pdf-to-docx"
     ∧ (splitext path).2 = ".docx" ∧ (∃ stem, name = stem +:+ ".docx")
     ∧ mime = docx_mimetype).
Proof.
  intros Hsent.
  destruct (convert_file_sent _ _ _ _ _ _ _ Hsent)
    as (file & ext & Hfile & Hname & Hpath & Hbase & _ & Hkind).
  destruct (unique_filename_plain (file_filename file) u) as [Hplain Hne].
  destruct Hkind as [(Htype & -> & -> & _)|(Htype & -> & -> & _)]; [right|left].
  - destruct (converted_path_name (file_filename file) u ".docx" (chars ".doc") "x")
      as [Heq Hbn]; [done|done|by repeat constructor|].
    rewrite <- Hpath in Heq, Hbn. split_and!; try done.
    + rewrite Heq. change ".docx" with ("." +:+ "docx").
      rewrite splitext_child; [done|done|by repeat constructor|done].
    + rewrite Hbase, Hbn. eauto.
  - destruct (converted_path_name (file_filename file) u ".pdf" (chars ".pd") "f")
      as [Heq Hbn]; [done|done|by repeat constructor|].
    rewrite <- Hpath in Heq, Hbn. split_and!; try done.
    + rewrite Heq. change ".pdf" with ("." +:+ "pdf").
      rewrite splitext_child; [done|done|by repeat constructor|done].
    + rewrite Hbase, Hbn. eauto.
Qed.

(** C8, as amended. A request that has a file part which [file.save]
    stores without raising, and a type that is not empty and is neither
    literal, is answered 400 with the error "Invalid conversion type". *)
Theorem unrecognized_type_rejected u req w file t :
  req_file req = Some file →
  req_type req = Some t →
  t ≠ "" → t ≠ "pdf-to-docx" → t ≠ "docx-to-pdf" →
  write_error (files w)
    (path_join UPLOAD_FOLDER (secure_filename (file_filename file)))
    (file_stream file) = None →
  (convert_file u req w).1 = JsonError "Invalid conversion type" 400.
Proof.
  intros Hfile Htype Ht Hpdf Hdocx Hsave.
  rewrite (convert_file_invalid_type u req w file); try done.
  - rewrite Htype. by apply truthy_nonempty.
  - rewrite Htype. congruence.
  - rewrite Htype. congruence.
Qed.

(** C9. A request without a file part is answered 400 with the error "No
    file uploaded", and the world is left as it was: no file is written and
    nothing is printed. *)
Theorem missing_file_rejected_without_effect u req w :
  req_file req = None →
  convert_file u req w = (JsonError "No file uploaded" 400, w).
Proof. apply convert_file_no_file. Qed.


End Runs.

(** C6. A document with exactly [lines_per_page] paragraphs fills its first
    page, the loop breaks the page after the last line and selects the font
    again, and [save] closes that second page: the PDF has two pages, the
    second without text. *)
Theorem full_page_is_followed_by_an_empty_page converted_path paragraphs :
  length paragraphs = lines_per_page →
  let pages := saved_pages (docx_to_pdf_canvas converted_path paragraphs) in
  length pages = 2%nat ∧ lines_on <$> pages = [lines_per_page; 0%nat].
Proof.
  intros Hlen pages. subst pages. split.
  - by rewrite docx_to_pdf_page_count, Hlen.
  - destruct (docx_to_pdf_canvas_spec converted_path paragraphs) as (_ & _ & -> & _).
    by rewrite Hlen.
Qed.

(** ** The properties on concrete requests *)

Lemma docx_paragraphs_drawn_in_order_witness :
  ∃ converted_path pages,
    draw_ops pages = [DrawString 50 800 "A"; DrawString 50 780 "B"]
    ∧ (toy_convert_file 5 docx_request empty_world).1 =
        SendFile converted_path (basename converted_path) "application/pdf"
          (toy_render pages).
Proof.
  destruct (docx_paragraphs_drawn_in_order ascii_only toy_pdf2docx toy_paragraphs
              toy_render "/srv/backend" toy_disk_error 5 docx_request empty_world
              (mkFile "notes.docx" [Byte.x41; Byte.x42]) ["A"; "B"])
    as (converted_path & pages & Hpath & Hpages & _ & Hdraws & _ & _ & Hout);
    [reflexivity|reflexivity|reflexivity|reflexivity|].
  exists converted_path, pages. split; [exact Hdraws|].
  destruct (write_error toy_disk_error _ converted_path _) as [e|] eqn:Hwrite.
  - subst converted_path pages. by vm_compute in Hwrite.
  - by destruct Hout.
Defined.

(** The claim C2 asks for a test of the size; the handler sends an artifact
    of size zero. *)
Lemma empty_artifact_is_sent :
  (toy_convert_file 5 blank_pdf_request empty_world).1 =
    SendFile "/srv/backend/converted/scan-00000000000000000000000000000005.docx"
      "scan-00000000000000000000000000000005.docx" docx_mimetype []
  ∧ ¬ (∀ u req w path name mime body,
         (toy_convert_file u req w).1 = SendFile path name mime body →
         (0 < length body)%nat).
Proof.
  assert ((toy_convert_file 5 blank_pdf_request empty_world).1 =
    SendFile "/srv/backend/converted/scan-00000000000000000000000000000005.docx"
      "scan-00000000000000000000000000000005.docx" docx_mimetype []) as Hrun
    by (vm_compute; reflexivity).
  split; [exact Hrun|].
  intros Hsize. apply Hsize in Hrun. simpl in Hrun. lia.
Qed.

Lemma artifact_sent_only_if_it_exists_witness :
  files (toy_convert_file 5 docx_request empty_world).2
    !! "/srv/backend/converted/notes-00000000000000000000000000000005.pdf"
  = Some [Byte.x0c; Byte.x2e; Byte.x2e; Byte.x2e]
  ∧ ∃ e, (toy_convert_file 5 lost_pdf_request empty_world).1 =
         JsonError ("Conversion failed: " +:+ e) 500.
Proof.
  split.
  - apply (proj1 (artifact_sent_only_if_it_exists ascii_only toy_pdf2docx
                    toy_paragraphs toy_render "/srv/backend" toy_disk_error 5 docx_request empty_world)
             _ "notes-00000000000000000000000000000005.pdf" "application/pdf").
    vm_compute. reflexivity.
  - apply (proj2 (artifact_sent_only_if_it_exists ascii_only toy_pdf2docx
                    toy_paragraphs toy_render "/srv/backend" toy_disk_error 5 lost_pdf_request
                    empty_world) (mkFile "scan.pdf" []) ".docx").
    + reflexivity.
    + left. split; reflexivity.
    + vm_compute. reflexivity.
Defined.

Lemma artifact_extension_and_mimetype_match_type_witness :
  (req_type pdf_request = Some "docx-to-pdf"
   ∧ (splitext "/srv/backend/converted/scan-00000000000000000000000000000005.docx").2
     = ".pdf"
   ∧ (∃ stem, "scan-00000000000000000000000000000005.docx" = stem +:+ ".pdf")
   ∧ docx_mimetype = "application/pdf")
  ∨ (req_type pdf_request = Some "pdf-to-docx"
     ∧ (splitext "/srv/backend/converted/scan-00000000000000000000000000000005.docx").2
       = ".docx"
     ∧ (∃ stem, "scan-00000000000000000000000000000005.docx" = stem +:+ ".docx")
     ∧ docx_mimetype = docx_mimetype).
Proof.
  apply (artifact_extension_and_mimetype_match_type ascii_only toy_pdf2docx
           toy_paragraphs toy_render "/srv/backend" toy_disk_error 5 pdf_request empty_world
           _ _ _ [Byte.x25; Byte.x50]).
  vm_compute. reflexivity.
Defined.

(** C5. An upload named [report.final.docx] keeps its name through
    [secure_filename]; without its extension the name is [report.final], and
    the artifact is named after [report] alone. *)
Theorem artifact_name_cuts_at_first_dot :
  secure_filename ascii_only "report.final.docx" = "report.final.docx"
  ∧ (splitext "report.final.docx").1 = "report.final"
  ∧ unique_filename "report.final.docx" 5 = "report-00000000000000000000000000000005"
  ∧ (toy_convert_file 5
       (mkRequest (Some (mkFile "report.final.docx" [Byte.x41])) (Some "docx-to-pdf"))
       empty_world).1
    = SendFile "/srv/backend/converted/report-00000000000000000000000000000005.pdf"
        "report-00000000000000000000000000000005.pdf" "application/pdf"
        [Byte.x0c; Byte.x2e; Byte.x2e].
Proof. split_and!; vm_compute; reflexivity. Qed.

Lemma full_page_is_followed_by_an_empty_page_witness :
  length (saved_pages (docx_to_pdf_canvas "out.pdf" (repeat "line" 38))) = 2%nat
  ∧ lines_on <$> saved_pages (docx_to_pdf_canvas "out.pdf" (repeat "line" 38))
    = [lines_per_page; 0%nat].
Proof.
  apply (full_page_is_followed_by_an_empty_page "out.pdf" (repeat "line" 38)).
  reflexivity.
Defined.

(** The claim C8 is stated for every request with an unrecognized type.
    One without a file part is answered "No file uploaded"; one whose file
    name sanitizes to the empty string is answered 500, the upload path
    being the upload directory. *)
Lemma unrecognized_type_without_file :
  (toy_convert_file 5 no_file_request empty_world).1 = JsonError "No file uploaded" 400
  ∧ mentions "Invalid conversion type" "No file uploaded" = false
  ∧ (toy_convert_file 5 unnamed_file_request empty_world).1 =
      JsonError "Conversion failed: [Errno 21] Is a directory: '/srv/backend/uploads/'"
        500
  ∧ ¬ (∀ u req w t,
         req_type req = Some t →
         t ≠ "" → t ≠ "pdf-to-docx" → t ≠ "docx-to-pdf" →
         ∃ message, (toy_convert_file u req w).1 = JsonError message 400
                    ∧ mentions "Invalid conversion type" message = true).
Proof.
  split_and!; [reflexivity..|].
  intros Hclaim.
  destruct (Hclaim 5%N no_file_request empty_world "pdf-to-txt")
    as (message & Hresp & Hmentions); [done..|].
  vm_compute in Hresp. injection Hresp as <-. by vm_compute in Hmentions.
Qed.

Lemma unrecognized_type_rejected_witness :
  (toy_convert_file 5 odd_type_request empty_world).1
  = JsonError "Invalid conversion type" 400.
Proof.
  apply (unrecognized_type_rejected ascii_only toy_pdf2docx toy_paragraphs toy_render
           "/srv/backend" toy_disk_error 5 odd_type_request empty_world
           (mkFile "notes.txt" [Byte.x41]) "pdf-to-txt");
    (reflexivity || by vm_compute).
Defined.

Lemma missing_file_rejected_without_effect_witness :
  toy_convert_file 5 no_file_request empty_world
  = (JsonError "No file uploaded" 400, empty_world).
Proof.
  apply (missing_file_rejected_without_effect ascii_only toy_pdf2docx toy_paragraphs
           toy_render "/srv/backend" toy_disk_error 5 no_file_request empty_world).
  reflexivity.
Defined.



(** * Further properties of the conversion loop *)

Lemma Forall_draws (P : pdf_op → Prop) ops :
  (∀ op, is_draw op = false → P op) →
  Forall P (List.filter is_draw ops) → Forall P ops.
Proof.
  intros Hother. induction ops as [|op ops IH]; simpl; [done|].
  destruct (is_draw op) eqn:Hop.
  - intros [? ?]%Forall_cons. constructor; auto.
  - intros ?. constructor; auto.
Qed.

Lemma starts_with_font_snoc page op :
  starts_with_font page → starts_with_font (page ++ [op]).
Proof. unfold starts_with_font. by destruct page. Qed.

Lemma loop_font_first paragraphs : ∀ y pdf,
  Forall starts_with_font (cv_pages pdf) →
  starts_with_font (cv_code pdf) →
  let pdf' := snd (fold_left draw_paragraph paragraphs (y, pdf)) in
  Forall starts_with_font (cv_pages pdf') ∧ starts_with_font (cv_code pdf').
Proof.
  induction paragraphs as [|text ps IH]; intros y pdf Hpages Hcode; cbn [fold_left].
  - done.
  - destruct (draw_paragraph (y, pdf) text) as [y' pdf1] eqn:Hstep.
    unfold draw_paragraph in Hstep.
    destruct (y - 20 <? 50); injection Hstep as <- <-.
    + apply IH; simpl; [|done].
      apply Forall_app. split; [done|]. constructor; [|done].
      by apply starts_with_font_snoc.
    + apply IH; simpl; [done|]. by apply starts_with_font_snoc.
Qed.

(** X1. A document of N paragraphs is saved with N / 38 + 1 pages: one page
    more than the number of page breaks, so never zero pages, and the last
    page holds the N mod 38 lines left. *)
Theorem page_count_of_document converted_path paragraphs :
  let pages := saved_pages (docx_to_pdf_canvas converted_path paragraphs) in
  length pages = S (length paragraphs / lines_per_page)
  ∧ lines_on <$> last pages = Some (length paragraphs mod lines_per_page)%nat.
Proof.
  intros pages. subst pages.
  destruct (docx_to_pdf_canvas_spec converted_path paragraphs) as (_ & _ & Hlines & _).
  split.
  - apply (f_equal length) in Hlines.
    rewrite length_fmap, length_app, repeat_length in Hlines. simpl in Hlines. lia.
  - rewrite <- fmap_last, Hlines. apply last_snoc.
Qed.

(** X2. Every text is drawn at x = 50 and at a vertical offset from 60 to
    the start position 800: the loop never draws below the bottom margin 50
    it tests. *)
Theorem text_is_drawn_within_margins converted_path paragraphs :
  Forall in_margins (concat (saved_pages (docx_to_pdf_canvas converted_path paragraphs))).
Proof.
  destruct (docx_to_pdf_canvas_spec converted_path paragraphs) as (Hdraws & _).
  unfold draw_ops in Hdraws.
  apply Forall_draws; [by intros []|].
  rewrite Hdraws. apply Forall_forall. intros op Hop.
  apply elem_of_lookup_imap in Hop as (k & text & -> & _).
  unfold in_margins, line_offset, lines_per_page. lia.
Qed.

(** X3. Every page of the saved document starts by selecting Helvetica 12:
    the font is set again after each page break. *)
Theorem every_page_selects_the_font converted_path paragraphs :
  Forall starts_with_font (saved_pages (docx_to_pdf_canvas converted_path paragraphs)).
Proof.
  unfold docx_to_pdf_canvas.
  destruct (loop_font_first paragraphs 800
              (setFont "Helvetica" 12 (new_canvas converted_path)))
    as [Hpages Hcode]; [done|done|].
  cbv zeta in Hpages, Hcode.
  rewrite saved_pages_pending.
  - apply Forall_app. split; [done|]. by constructor.
  - intros Hnil. by rewrite Hnil in Hcode.
Qed.

(** * Further properties of the handler *)

Section Coverage.

Variable nfkd_ascii : string → string.
Variable pdf2docx : bytes → conv_outcome.
Variable docx_paragraphs : bytes → string + list string.
Variable pdf_render : list (list pdf_op) → bytes.
Variable BASE_DIR : string.
Variable disk_error : gmap string bytes → string → bytes → option string.

Local Abbreviation secure_filename := (secure_filename nfkd_ascii).
Local Abbreviation UPLOAD_FOLDER := (UPLOAD_FOLDER BASE_DIR).
Local Abbreviation CONVERTED_FOLDER := (CONVERTED_FOLDER BASE_DIR).
Local Abbreviation write_error := (write_error disk_error).
Local Abbreviation convert_file :=
  (convert_file nfkd_ascii pdf2docx docx_paragraphs pdf_render BASE_DIR disk_error).

(** Every way the handler can end, with the files it leaves. *)
Lemma convert_file_cases u req w :
  (req_file req = None
   ∧ outcome (convert_file u req w) = (JsonError "No file uploaded" 400, files w))
  ∨ ∃ file, req_file req = Some file
    ∧ ((truthy (req_type req) = false
        ∧ outcome (convert_file u req w) =
            (JsonError "Conversion type not specified" 400, files w))
       ∨ (truthy (req_type req) = true
          ∧ is_Some (write_error (files w)
                       (path_join UPLOAD_FOLDER (secure_filename (file_filename file)))
                       (file_stream file))
          ∧ ∃ e, outcome (convert_file u req w) =
                   (JsonError ("Conversion failed: " +:+ e) 500, files w))
       ∨ (truthy (req_type req) = true
          ∧ write_error (files w)
              (path_join UPLOAD_FOLDER (secure_filename (file_filename file)))
              (file_stream file) = None
          ∧ ∃ stored_files,
              stored_files =
                <[path_join UPLOAD_FOLDER (secure_filename (file_filename file))
                  := file_stream file]> (files w)
              ∧ (outcome (convert_file u req w) =
                   (JsonError "Invalid conversion type" 400, stored_files)
                 ∨ (∃ e, outcome (convert_file u req w) =
                           (JsonError ("Conversion failed: " +:+ e) 500, stored_files))
                 ∨ (∃ ext body converted_path,
                      (ext = ".docx" ∨ ext = ".pdf")
                      ∧ converted_path =
                          path_join CONVERTED_FOLDER
                            (unique_filename (secure_filename (file_filename file)) u
                             +:+ ext)
                      ∧ outcome (convert_file u req w) =
                          (SendFile converted_path (basename converted_path)
                             (mimetype_of (req_type req)) body,
                           <[converted_path := body]> stored_files))))).
Proof.
  destruct (req_file req) as [file|] eqn:Hfile.
  2:{ left. split; [done|]. by rewrite convert_file_no_file. }
  right. exists file. split; [done|].
  destruct (truthy (req_type req)) eqn:Htruthy.
  2:{ left. split; [done|]. by rewrite (convert_file_no_type _ _ _ _ _ _ u req w file). }
  right.
  destruct (write_error (files w)
              (path_join UPLOAD_FOLDER (secure_filename (file_filename file)))
              (file_stream file)) as [e|] eqn:Hsave.
  { left. split_and!; [done|by eexists|].
    exists e. by rewrite (convert_file_refused _ _ _ _ _ _ u req w file e). }
  right. split_and!; [done..|]. eexists. split; [reflexivity|].
  destruct (decide (req_type req = Some "pdf-to-docx")) as [Hpdf|Hpdf].
  { rewrite (convert_file_pdf_to_docx _ _ _ _ _ _ u req w file) by done.
    unfold mimetype_of. rewrite Hpdf. rewrite bool_decide_eq_false_2 by done.
    destruct (pdf2docx (file_stream file)) as [e|docx|].
    - right. left. eauto.
    - destruct (write_error (<[_ := _]> (files w)) _ docx) as [e|].
      + right. left. eauto.
      + right. right. eexists ".docx", docx, _.
        split_and!; [by left|reflexivity|done].
    - destruct (<[_ := _]> (files w) !! path_join _ _) as [old|] eqn:Hold.
      + right. right. eexists ".docx", old, _. split_and!; [by left|reflexivity|].
        by rewrite (insert_id _ _ _ Hold).
      + right. left. by eexists ("Converted file not found: " +:+ _). }
  destruct (decide (req_type req = Some "docx-to-pdf")) as [Hdocx|Hdocx].
  { rewrite (convert_file_docx_to_pdf _ _ _ _ _ _ u req w file) by done.
    unfold mimetype_of. rewrite Hdocx. rewrite bool_decide_eq_true_2 by done.
    destruct (docx_paragraphs (file_stream file)) as [e|paragraphs].
    - right. left. eauto.
    - destruct (write_error (<[_ := _]> (files w)) _ _) as [e|].
      + right. left. eauto.
      + right. right. eexists ".pdf", _, _.
        split_and!; [by right|reflexivity|done]. }
  left. by rewrite (convert_file_invalid_type _ _ _ _ _ _ u req w file).
Qed.

Lemma outcome_inv r response disk :
  outcome r = (response, disk) → r.1 = response ∧ files r.2 = disk.
Proof. unfold outcome. by intros [= -> ->]. Qed.

(** The upload path and an artifact path are never the same path. *)
Lemma upload_path_not_artifact_path filename filename' u ext :
  ext = ".docx" ∨ ext = ".pdf" →
  path_join UPLOAD_FOLDER (secure_filename filename) ≠
  path_join CONVERTED_FOLDER (unique_filename (secure_filename filename') u +:+ ext).
Proof.
  intros Hext. rewrite upload_path_eq.
  destruct Hext as [-> | ->].
  - destruct (converted_path_props nfkd_ascii BASE_DIR filename' u ".docx"
                (chars ".doc") "x") as (-> & _); [done..|].
    apply folders_apart.
  - destruct (converted_path_props nfkd_ascii BASE_DIR filename' u ".pdf"
                (chars ".pd") "f") as (-> & _); [done..|].
    apply folders_apart.
Qed.

(** X4. A request with a file part whose type field is missing or empty is
    answered 400 "Conversion type not specified"; nothing is written and
    nothing is printed. *)
Theorem missing_type_rejected_without_effect u req w file :
  req_file req = Some file →
  req_type req = None ∨ req_type req = Some "" →
  convert_file u req w = (JsonError "Conversion type not specified" 400, w).
Proof.
  intros Hfile Htype.
  apply (convert_file_no_type _ _ _ _ _ _ u req w file); [done|].
  by destruct Htype as [-> | ->].
Qed.

(** X5. Every response is a file with one of the two content types, a 400
    error with one of the three validation messages, or a 500 error whose
    message starts with "Conversion failed: ". *)
Theorem response_is_classified u req w :
  match (convert_file u req w).1 with
  | SendFile _ _ mime _ => mime = "application/pdf" ∨ mime = docx_mimetype
  | JsonError error status =>
      status = 400
      ∧ (error = "No file uploaded" ∨ error = "Conversion type not specified"
         ∨ error = "Invalid conversion type")
      ∨ status = 500 ∧ ∃ e, error = "Conversion failed: " +:+ e
  end.
Proof.
  destruct (convert_file_cases u req w)
    as [[_ H]|(file & _ & [[_ H]|[(_ & _ & e & H)|(_ & _ & disk & _ &
         [H|[[e H]|(ext & body & path & _ & _ & H)]])]])];
    apply outcome_inv in H as [-> _]; try (left; by eauto); try (right; by eauto).
  unfold mimetype_of. case_bool_decide; eauto.
Qed.

Lemma convert_file_frame u req w file p :
  req_file req = Some file →
  p ≠ path_join UPLOAD_FOLDER (secure_filename (file_filename file)) →
  p ≠ path_join CONVERTED_FOLDER
        (unique_filename (secure_filename (file_filename file)) u +:+ ".docx") →
  p ≠ path_join CONVERTED_FOLDER
        (unique_filename (secure_filename (file_filename file)) u +:+ ".pdf") →
  files (convert_file u req w).2 !! p = files w !! p.
Proof.
  intros Hfile Hup Hdocx Hpdf.
  destruct (convert_file_cases u req w)
    as [[_ H]|(file' & Hfile' & [[_ H]|[(_ & _ & e & H)|(_ & _ & disk & -> &
         [H|[[e H]|(ext & body & path & Hext & -> & H)]])]])];
    apply outcome_inv in H as [_ ->]; try done;
    rewrite Hfile in Hfile'; injection Hfile' as <-.
  - by rewrite lookup_insert_ne.
  - by rewrite lookup_insert_ne.
  - rewrite !lookup_insert_ne; [done|done|]. by destruct Hext as [-> | ->].
Qed.

(** X7. The handler never removes a file: whatever is on disk before the
    request is still a file afterwards. *)
Theorem nothing_is_deleted u req w p :
  is_Some (files w !! p) → is_Some (files (convert_file u req w).2 !! p).
Proof.
  intros Hp.
  destruct (convert_file_cases u req w)
    as [[_ H]|(file' & Hfile' & [[_ H]|[(_ & _ & e & H)|(_ & _ & disk & -> &
         [H|[[e H]|(ext & body & path & Hext & -> & H)]])]])];
    apply outcome_inv in H as [_ ->]; try done;
    rewrite ?lookup_insert_is_Some'; auto.
Qed.

(** X8. When the sanitized name of the upload is empty, the upload path is
    the upload directory: nothing is stored, the request is answered 500 and
    the error is printed. *)
Theorem unnamed_upload_is_not_stored u req w file :
  req_file req = Some file →
  truthy (req_type req) = true →
  secure_filename (file_filename file) = "" →
  ∃ e, convert_file u req w =
       (JsonError ("Conversion failed: " +:+ e) 500,
        mkWorld (files w) (stdout w ++ ["Error during conversion: " +:+ e])).
Proof. apply convert_file_not_stored. Qed.

(** X9. When [file.save] stores the upload and the PDF converter raises,
    the request is answered 500 with the message of the exception; the
    upload stays on disk and no artifact is written. *)
Theorem pdf_converter_failure_is_reported u req w file e :
  req_file req = Some file →
  req_type req = Some "pdf-to-docx" →
  write_error (files w)
    (path_join UPLOAD_FOLDER (secure_filename (file_filename file)))
    (file_stream file) = None →
  pdf2docx (file_stream file) = ConvRaises e →
  (convert_file u req w).1 = JsonError ("Conversion failed: " +:+ e) 500
  ∧ files (convert_file u req w).2 =
      <[path_join UPLOAD_FOLDER (secure_filename (file_filename file))
        := file_stream file]> (files w).
Proof.
  intros Hfile Htype Hname Hconv. apply outcome_inv.
  rewrite (convert_file_pdf_to_docx _ _ _ _ _ _ u req w file) by done.
  by rewrite Hconv.
Qed.

(** X10. When [file.save] stores the upload and the DOCX reader raises,
    the request is answered 500 with the message of the exception; the
    upload stays on disk and no PDF is written. *)
Theorem docx_reader_failure_is_reported u req w file e :
  req_file req = Some file →
  req_type req = Some "docx-to-pdf" →
  write_error (files w)
    (path_join UPLOAD_FOLDER (secure_filename (file_filename file)))
    (file_stream file) = None →
  docx_paragraphs (file_stream file) = inl e →
  (convert_file u req w).1 = JsonError ("Conversion failed: " +:+ e) 500
  ∧ files (convert_file u req w).2 =
      <[path_join UPLOAD_FOLDER (secure_filename (file_filename file))
        := file_stream file]> (files w).
Proof.
  intros Hfile Htype Hname Hdoc. apply outcome_inv.
  rewrite (convert_file_docx_to_pdf _ _ _ _ _ _ u req w file) by done.
  by rewrite Hdoc.
Qed.

(** X11. When the disk accepts the upload and the artifact and the PDF
    converter writes a document, the response is that document, byte for
    byte, with the OOXML content type and, as download name, the name of
    the artifact; upload and artifact are both on disk. *)
Theorem pdf_conversion_sends_converter_output u req w file docx :
  let filename := secure_filename (file_filename file) in
  let filepath := UPLOAD_FOLDER +:+ "/" +:+ filename in
  let name := unique_filename filename u +:+ ".docx" in
  let converted_path := CONVERTED_FOLDER +:+ "/" +:+ name in
  req_file req = Some file →
  req_type req = Some "pdf-to-docx" →
  write_error (files w) filepath (file_stream file) = None →
  pdf2docx (file_stream file) = ConvWrites docx →
  write_error (<[filepath := file_stream file]> (files w)) converted_path docx = None →
  (convert_file u req w).1 = SendFile converted_path name docx_mimetype docx
  ∧ files (convert_file u req w).2 =
      <[converted_path := docx]> (<[filepath := file_stream file]> (files w)).
Proof.
  intros filename filepath name converted_path.
  subst filename filepath name converted_path.
  destruct (converted_path_name nfkd_ascii BASE_DIR (file_filename file) u ".docx"
              (chars ".doc") "x") as [Heq Hbase]; [done|done|by repeat constructor|].
  cbv zeta in Heq, Hbase. rewrite <- Heq, <- upload_path_eq.
  intros Hfile Htype Hsave Hconv Hwrite.
  apply outcome_inv.
  rewrite (convert_file_pdf_to_docx _ _ _ _ _ _ u req w file) by done.
  by rewrite Hconv, Hwrite, Hbase.
Qed.

Lemma convert_file_keeps_upload u req w file :
  req_file req = Some file →
  truthy (req_type req) = true →
  write_error (files w)
    (path_join UPLOAD_FOLDER (secure_filename (file_filename file)))
    (file_stream file) = None →
  files (convert_file u req w).2
    !! path_join UPLOAD_FOLDER (secure_filename (file_filename file))
  = Some (file_stream file).
Proof.
  intros Hfile Htruthy Hsave.
  destruct (convert_file_cases u req w)
    as [[Hnone _]|(file' & Hfile' & [[Hfalse _]|[(_ & [e' He'] & _)|(_ & _ & disk & -> &
         [H|[[e H]|(ext & body & path & Hext & -> & H)]])]])];
    try congruence;
    try apply outcome_inv in H as [_ ->];
    rewrite Hfile in Hfile'; injection Hfile' as <-; try congruence.
  - apply lookup_insert_eq.
  - apply lookup_insert_eq.
  - rewrite lookup_insert_ne; [apply lookup_insert_eq|].
    apply not_eq_sym. by apply upload_path_not_artifact_path.
Qed.

(** X6. The handler changes at most three paths: the upload path and the
    two paths an artifact of this request can have.  Every other file keeps
    its content, and a path that held no file still holds none. *)
Theorem other_files_untouched u req w file p :
  req_file req = Some file →
  p ≠ path_join UPLOAD_FOLDER (secure_filename (file_filename file)) →
  p ≠ path_join CONVERTED_FOLDER
        (unique_filename (secure_filename (file_filename file)) u +:+ ".docx") →
  p ≠ path_join CONVERTED_FOLDER
        (unique_filename (secure_filename (file_filename file)) u +:+ ".pdf") →
  files (convert_file u req w).2 !! p = files w !! p.
Proof. apply convert_file_frame. Qed.

(** X12. Once [file.save] has stored the upload it is still on disk, with
    the bytes received, when the handler returns, whatever the conversion
    does: the handler never removes or overwrites the upload it has
    stored. *)
Theorem upload_outlives_the_request u req w file :
  req_file req = Some file →
  truthy (req_type req) = true →
  write_error (files w)
    (path_join UPLOAD_FOLDER (secure_filename (file_filename file)))
    (file_stream file) = None →
  files (convert_file u req w).2
    !! path_join UPLOAD_FOLDER (secure_filename (file_filename file))
  = Some (file_stream file).
Proof. apply convert_file_keeps_upload. Qed.


Lemma unique_filename_ext_chars filename u ext :
  chars (unique_filename filename u +:+ ext) =
  (chars (str_split_0 "." filename) ++ "-"%char :: hex_digits 32 u) ++ chars ext.
Proof.
  unfold unique_filename, uuid_hex.
  rewrite !chars_app, chars_str, <- !app_assoc. done.
Qed.



(** X15. A file response only ever serves a file that lies directly in the
    converted folder: its path is that folder, a separator and the download
    name, and the download name holds no separator. *)
Theorem sent_file_is_inside_converted_folder u req w path name mime body :
  (convert_file u req w).1 = SendFile path name mime body →
  path = CONVERTED_FOLDER +:+ "/" +:+ name
  ∧ Forall (λ c, c ≠ "/"%char) (chars name)
  ∧ within CONVERTED_FOLDER path.
Proof.
  intros Hsent.
  destruct (convert_file_sent _ _ _ _ _ _ _ _ _ _ _ _ _ Hsent)
    as (file & ext & _ & _ & Hpath & Hname & _ & Hkind).
  assert (ext = ".docx" ∨ ext = ".pdf") as Hext.
  { destruct Hkind as [(_ & -> & _)|(_ & -> & _)]; auto. }
  assert (path = CONVERTED_FOLDER +:+ "/" +:+
                 unique_filename (secure_filename (file_filename file)) u +:+ ext
          ∧ basename path =
              unique_filename (secure_filename (file_filename file)) u +:+ ext)
    as [Heq Hbase].
  { rewrite Hpath. destruct Hext as [-> | ->].
    - by apply (converted_path_name nfkd_ascii BASE_DIR _ _ _ (chars ".doc") "x");
        repeat constructor.
    - by apply (converted_path_name nfkd_ascii BASE_DIR _ _ _ (chars ".pd") "f");
        repeat constructor. }
  rewrite Hname, Hbase.
  assert (Forall (λ c, c ≠ "/"%char)
            (chars (unique_filename (secure_filename (file_filename file)) u +:+ ext)))
    as Hsep.
  { rewrite chars_app. apply Forall_app. split.
    - destruct (unique_filename_plain nfkd_ascii (file_filename file) u) as [Hplain _].
      eapply Forall_impl; [exact Hplain|]. by intros ? [? _].
    - destruct Hext as [-> | ->]; by repeat constructor. }
  split_and!; [done|done|].
  rewrite Heq. apply resolve_child; [done|].
  intros Hdots. apply (f_equal chars) in Hdots.
  rewrite unique_filename_ext_chars in Hdots.
  apply (f_equal length) in Hdots.
  rewrite !length_app, length_cons, hex_digits_length in Hdots.
  change (length (chars "..")) with 2%nat in Hdots. lia.
Qed.

Lemma strip_last p l c : last (strip p l) = Some c → p c = false.
Proof.
  intros [l' Hl']%last_Some. unfold strip in Hl'.
  apply (f_equal (@rev ascii)) in Hl'.
  rewrite rev_involutive, rev_app_distr in Hl'. simpl in Hl'.
  by apply lstrip_hd in Hl'.
Qed.

(** X16. The name an upload is stored under is made of letters, digits,
    [_], [.] and [-] only, and neither starts nor ends with a dot or an
    underscore: no hidden file and no path separator can come out of a file
    name sent by a client. *)
Theorem sanitized_name_shape original :
  let name := chars (secure_filename original) in
  Forall (λ c, filename_safe_char c = true) name
  ∧ (∀ c, head name = Some c → dot_or_underscore c = false)
  ∧ (∀ c, last name = Some c → dot_or_underscore c = false).
Proof.
  intros name. subst name. split_and!.
  - apply secure_filename_safe.
  - intros c Hc. destruct (chars (secure_filename original)) as [|c' l] eqn:Hname;
      [done|]. injection Hc as ->. by eapply secure_filename_hd.
  - unfold Server.secure_filename. rewrite chars_str. apply strip_last.
Qed.

Lemma bind_inr {A B} (m : M A) (k : A → M B) w r w' :
  (m ≫= k) w = (inr r, w') →
  ∃ a w1, m w = (inr a, w1) ∧ k a w1 = (inr r, w').
Proof. rewrite bind_run. destruct (m w) as [[e|a] w1]; [done|eauto]. Qed.

Lemma write_file_inr path data w a w' :
  write_file disk_error path data w = (inr a, w') → stdout w' = stdout w.
Proof. unfold write_file. destruct (write_error (files w) path data); by intros [= <- <-]. Qed.

Lemma Converter_convert_inr filepath converted_path w a w' :
  Converter_convert pdf2docx disk_error filepath converted_path w = (inr a, w') →
  stdout w' = stdout w.
Proof.
  unfold Server.Converter_convert. rewrite bind_run. unfold read_file at 1.
  destruct (files w !! filepath) as [data|]; [|done].
  destruct (pdf2docx data) as [e|docx|]; [done| |by intros [= <- <-]].
  apply write_file_inr.
Qed.

Lemma Document_inr filepath w paragraphs w' :
  Document docx_paragraphs filepath w = (inr paragraphs, w') → w' = w.
Proof.
  unfold Server.Document. rewrite bind_run. unfold read_file at 1.
  destruct (files w !! filepath) as [data|]; [|done].
  destruct (docx_paragraphs data) as [e|ps]; [done|]. by intros [= <- <-].
Qed.

Lemma send_converted_inr conversion_type path w response w' :
  send_converted conversion_type path w = (inr response, w') →
  ∃ body,
    response = SendFile path (basename path) (mimetype_of conversion_type) body
    ∧ stdout w' =
        (stdout w ++ ["Sending file: " +:+ path])
        ++ ["File size: " +:+ pretty (N.of_nat (length body)) +:+ " bytes"].
Proof.
  destruct (files w !! path) as [body|] eqn:Hfile.
  - destruct (decide (path = "")) as [->|Hpath]; [done|].
    rewrite (send_converted_found _ _ body) by done.
    intros [= <- <-]. eauto.
  - by rewrite send_converted_missing.
Qed.

(** The line printed before the conversion starts. *)
Lemma convert_file_try_inr u req w response w' :
  Server.convert_file_try nfkd_ascii pdf2docx docx_paragraphs pdf_render BASE_DIR
    disk_error u req w = (inr response, w') →
  (∃ error, response = JsonError error 400)
  ∨ ∃ file path body,
      req_file req = Some file
      ∧ response = SendFile path (basename path) (mimetype_of (req_type req)) body
      ∧ stdout w' =
          stdout w
          ++ ["Uploaded file saved at: "
              +:+ path_join UPLOAD_FOLDER (secure_filename (file_filename file));
              conversion_line (req_type req)
                (path_join UPLOAD_FOLDER (secure_filename (file_filename file))) path;
              "Sending file: " +:+ path;
              "File size: " +:+ pretty (N.of_nat (length body)) +:+ " bytes"].
Proof.
  intros Hrun.
  destruct (req_file req) as [file|] eqn:Hfile.
  2:{ unfold Server.convert_file_try in Hrun. rewrite Hfile in Hrun.
      injection Hrun as <- _. eauto. }
  destruct (truthy (req_type req)) eqn:Htruthy.
  2:{ unfold Server.convert_file_try in Hrun. rewrite Hfile, Htruthy in Hrun.
      injection Hrun as <- _. eauto. }
  destruct (write_error (files w)
              (path_join UPLOAD_FOLDER (secure_filename (file_filename file)))
              (file_stream file)) as [e|] eqn:Hsave.
  { unfold Server.convert_file_try in Hrun. rewrite Hfile, Htruthy in Hrun.
    cbn [negb] in Hrun. rewrite bind_run in Hrun. unfold file_save in Hrun.
    by rewrite (write_file_refused _ _ _ _ e) in Hrun. }
  rewrite (convert_file_try_stored _ _ _ _ _ _ u req w file) in Hrun by done.
  cbv zeta in Hrun. unfold conversion_line.
  destruct (bool_decide (req_type req = Some "pdf-to-docx")).
  { apply bind_inr in Hrun as (? & w2 & Hprint & Hrun). injection Hprint as _ <-.
    apply bind_inr in Hrun as (? & w3 & Hconv & Hrun).
    apply Converter_convert_inr in Hconv.
    apply send_converted_inr in Hrun as (body & -> & Hout).
    right. eexists file, _, body. split_and!; [done..|].
    rewrite Hout, Hconv. cbn [stdout stored]. by rewrite <- !app_assoc. }
  destruct (bool_decide (req_type req = Some "docx-to-pdf")).
  { apply bind_inr in Hrun as (? & w2 & Hprint & Hrun). injection Hprint as _ <-.
    apply bind_inr in Hrun as (paragraphs & w3 & Hdoc & Hrun).
    apply Document_inr in Hdoc as ->.
    apply bind_inr in Hrun as (? & w4 & Hsave' & Hrun).
    apply write_file_inr in Hsave'.
    apply send_converted_inr in Hrun as (body & -> & Hout).
    right. eexists file, _, body. split_and!; [done..|].
    rewrite Hout, Hsave'. cbn [stdout stored]. by rewrite <- !app_assoc. }
  injection Hrun as <- _. eauto.
Qed.

(** X17. A successful conversion prints exactly four lines: the path of
    the upload, the line of the conversion that is run with the upload path
    and the artifact path, the path of the artifact, and the size of the
    body that is sent. *)
Theorem success_log_reports_body_size u req w path name mime body :
  (convert_file u req w).1 = SendFile path name mime body →
  ∃ file,
    req_file req = Some file
    ∧ stdout (convert_file u req w).2 =
        stdout w
        ++ ["Uploaded file saved at: "
            +:+ path_join UPLOAD_FOLDER (secure_filename (file_filename file));
            conversion_line (req_type req)
              (path_join UPLOAD_FOLDER (secure_filename (file_filename file))) path;
            "Sending file: " +:+ path;
            "File size: " +:+ pretty (N.of_nat (length body)) +:+ " bytes"].
Proof.
  unfold Server.convert_file.
  destruct (Server.convert_file_try _ _ _ _ _ _ u req w) as [[e|response] w'] eqn:Hrun;
    [done|].
  cbn [fst snd]. intros ->.
  apply convert_file_try_inr in Hrun
    as [[error [=]]|(file & path' & body' & Hfile & [= -> _ _ ->] & Hout)].
  eauto.
Qed.

(** X18. No error is swallowed: every 500 response carries the message of
    the exception caught, prefixed by "Conversion failed: ", and the same
    message is the last line printed, prefixed by "Error during
    conversion: ". *)
Theorem server_errors_are_logged u req w :
  status_code (convert_file u req w).1 = 500 →
  ∃ e, (convert_file u req w).1 = JsonError ("Conversion failed: " +:+ e) 500
       ∧ last (stdout (convert_file u req w).2) = Some ("Error during conversion: " +:+ e).
Proof.
  unfold Server.convert_file.
  destruct (Server.convert_file_try _ _ _ _ _ _ u req w) as [[e|response] w'] eqn:Hrun.
  - cbn [fst snd stdout]. intros _. exists e. split; [done|apply last_snoc].
  - cbn [fst snd]. intros Hstatus.
    apply convert_file_try_inr in Hrun as [[error ->]|(? & ? & ? & _ & -> & _)];
      done.
Qed.

(** X19. When [file.save] stores the upload, the PDF converter returns
    without writing and the artifact path is free, the request is answered
    500 "Conversion failed: Converted file not found: <path>", and the
    upload stays on disk. *)
Theorem missing_artifact_is_reported u req w file :
  req_file req = Some file →
  req_type req = Some "pdf-to-docx" →
  write_error (files w)
    (path_join UPLOAD_FOLDER (secure_filename (file_filename file)))
    (file_stream file) = None →
  pdf2docx (file_stream file) = ConvNoOutput →
  let converted_path :=
    path_join CONVERTED_FOLDER
      (unique_filename (secure_filename (file_filename file)) u +:+ ".docx") in
  files w !! converted_path = None →
  (convert_file u req w).1 =
    JsonError ("Conversion failed: Converted file not found: " +:+ converted_path) 500
  ∧ files (convert_file u req w).2 =
      <[path_join UPLOAD_FOLDER (secure_filename (file_filename file))
        := file_stream file]> (files w).
Proof.
  intros Hfile Htype Hname Hconv converted_path Hfree. subst converted_path.
  apply outcome_inv.
  rewrite (convert_file_pdf_to_docx _ _ _ _ _ _ u req w file) by done.
  rewrite Hconv, lookup_insert_ne, Hfree; [done|].
  apply upload_path_not_artifact_path. by left.
Qed.

(** X20. The test before sending is a test of existence only: when
    [file.save] stores the upload, the PDF converter returns without writing
    and the artifact path already holds a file, that file is sent with
    status 200 as if it were the result. *)
Theorem old_file_at_artifact_path_is_sent u req w file old :
  req_file req = Some file →
  req_type req = Some "pdf-to-docx" →
  write_error (files w)
    (path_join UPLOAD_FOLDER (secure_filename (file_filename file)))
    (file_stream file) = None →
  pdf2docx (file_stream file) = ConvNoOutput →
  let converted_path :=
    path_join CONVERTED_FOLDER
      (unique_filename (secure_filename (file_filename file)) u +:+ ".docx") in
  files w !! converted_path = Some old →
  (convert_file u req w).1 =
    SendFile converted_path (basename converted_path) docx_mimetype old.
Proof.
  intros Hfile Htype Hname Hconv converted_path Hold. subst converted_path.
  pose proof (convert_file_pdf_to_docx nfkd_ascii pdf2docx docx_paragraphs pdf_render
                BASE_DIR disk_error u req w file Hfile Htype Hname) as Hrun.
  cbv zeta in Hrun. rewrite Hconv, lookup_insert_ne, Hold in Hrun.
  - by apply outcome_inv in Hrun as [? _].
  - apply upload_path_not_artifact_path. by left.
Qed.

End Coverage.

(** ** The same request handled twice *)

(** What [Converter.convert] and [Canvas.save] write is the libraries'
    business: a PDF carries its creation date and a document identifier,
    the archive of a DOCX the time of each member.  Here the two libraries
    are taken as they behave at a given time; the handler run at time [t]
    is the handler of the source over the libraries at [t]. *)
Section Twice.

Variable nfkd_ascii : string → string.
Variable pdf2docx_at : N → bytes → conv_outcome.
Variable docx_paragraphs : bytes → string + list string.
Variable pdf_render_at : N → list (list pdf_op) → bytes.
Variable BASE_DIR : string.
Variable disk_error : gmap string bytes → string → bytes → option string.

Local Abbreviation secure_filename := (secure_filename nfkd_ascii).
Local Abbreviation UPLOAD_FOLDER := (UPLOAD_FOLDER BASE_DIR).
Local Abbreviation CONVERTED_FOLDER := (CONVERTED_FOLDER BASE_DIR).
Local Abbreviation convert_file_at t :=
  (convert_file nfkd_ascii (pdf2docx_at t) docx_paragraphs (pdf_render_at t)
     BASE_DIR disk_error).


End Twice.



(** ** The further properties on concrete requests *)

Lemma missing_type_rejected_without_effect_witness :
  toy_convert_file 5 untyped_request empty_world
  = (JsonError "Conversion type not specified" 400, empty_world).
Proof.
  apply (missing_type_rejected_without_effect ascii_only toy_pdf2docx toy_paragraphs
           toy_render "/srv/backend" toy_disk_error 5 untyped_request empty_world
           (mkFile "notes.docx" [Byte.x41])).
  - reflexivity.
  - by left.
Defined.

Lemma other_files_untouched_witness :
  files (toy_convert_file 5 docx_request stale_world).2
    !! "/srv/backend/converted/scan-00000000000000000000000000000005.docx"
  = Some [Byte.x53].
Proof.
  rewrite (other_files_untouched ascii_only toy_pdf2docx toy_paragraphs toy_render
             "/srv/backend" toy_disk_error 5 docx_request stale_world
             (mkFile "notes.docx" [Byte.x41; Byte.x42])); try by vm_compute.
Defined.

Lemma nothing_is_deleted_witness :
  is_Some (files (toy_convert_file 5 pdf_request stale_world).2
             !! "/srv/backend/converted/scan-00000000000000000000000000000005.docx").
Proof.
  apply (nothing_is_deleted ascii_only toy_pdf2docx toy_paragraphs toy_render
           "/srv/backend" toy_disk_error 5 pdf_request stale_world).
  by exists [Byte.x53].
Defined.

Lemma unnamed_upload_is_not_stored_witness :
  ∃ e, toy_convert_file 5 unnamed_file_request empty_world =
       (JsonError ("Conversion failed: " +:+ e) 500,
        mkWorld ∅ ["Error during conversion: " +:+ e]).
Proof.
  apply (unnamed_upload_is_not_stored ascii_only toy_pdf2docx toy_paragraphs toy_render
           "/srv/backend" toy_disk_error 5 unnamed_file_request empty_world (mkFile ".." [Byte.x41]));
    reflexivity.
Defined.

Lemma pdf_converter_failure_is_reported_witness :
  (toy_convert_file 5 bad_pdf_request empty_world).1
    = JsonError "Conversion failed: not a PDF" 500
  ∧ files (toy_convert_file 5 bad_pdf_request empty_world).2
    = <["/srv/backend/uploads/scan.pdf" := [Byte.xff]]> ∅.
Proof.
  apply (pdf_converter_failure_is_reported ascii_only toy_pdf2docx toy_paragraphs
           toy_render "/srv/backend" toy_disk_error 5 bad_pdf_request empty_world
           (mkFile "scan.pdf" [Byte.xff]) "not a PDF");
    (reflexivity || by vm_compute).
Defined.

Lemma docx_reader_failure_is_reported_witness :
  (strict_convert_file 5 empty_docx_request empty_world).1
    = JsonError "Conversion failed: Package not found" 500
  ∧ files (strict_convert_file 5 empty_docx_request empty_world).2
    = <["/srv/backend/uploads/notes.docx" := []]> ∅.
Proof.
  apply (docx_reader_failure_is_reported ascii_only toy_pdf2docx strict_paragraphs
           toy_render "/srv/backend" toy_disk_error 5 empty_docx_request empty_world
           (mkFile "notes.docx" []) "Package not found");
    (reflexivity || by vm_compute).
Defined.

Lemma pdf_conversion_sends_converter_output_witness :
  (toy_convert_file 5 pdf_request empty_world).1 =
    SendFile "/srv/backend/converted/scan-00000000000000000000000000000005.docx"
      "scan-00000000000000000000000000000005.docx" docx_mimetype [Byte.x25; Byte.x50]
  ∧ files (toy_convert_file 5 pdf_request empty_world).2 =
      <["/srv/backend/converted/scan-00000000000000000000000000000005.docx"
        := [Byte.x25; Byte.x50]]>
        (<["/srv/backend/uploads/scan.pdf" := [Byte.x25; Byte.x50]]> ∅).
Proof.
  apply (pdf_conversion_sends_converter_output ascii_only toy_pdf2docx toy_paragraphs
           toy_render "/srv/backend" toy_disk_error 5 pdf_request empty_world
           (mkFile "scan.pdf" [Byte.x25; Byte.x50]) [Byte.x25; Byte.x50]);
    (reflexivity || by vm_compute).
Defined.

Lemma upload_outlives_the_request_witness :
  files (toy_convert_file 5 bad_pdf_request empty_world).2
    !! "/srv/backend/uploads/scan.pdf" = Some [Byte.xff].
Proof.
  apply (upload_outlives_the_request ascii_only toy_pdf2docx toy_paragraphs toy_render
           "/srv/backend" toy_disk_error 5 bad_pdf_request empty_world (mkFile "scan.pdf" [Byte.xff]));
    (reflexivity || by vm_compute).
Defined.



Lemma sent_file_is_inside_converted_folder_witness :
  within "/srv/backend/converted"
    "/srv/backend/converted/scan-00000000000000000000000000000005.docx".
Proof.
  apply (sent_file_is_inside_converted_folder ascii_only toy_pdf2docx toy_paragraphs
           toy_render "/srv/backend" toy_disk_error 5 pdf_request empty_world _
           "scan-00000000000000000000000000000005.docx" docx_mimetype
           [Byte.x25; Byte.x50]).
  vm_compute. reflexivity.
Defined.

Lemma success_log_reports_body_size_witness :
  ∃ file,
    req_file pdf_request = Some file
    ∧ stdout (toy_convert_file 5 pdf_request empty_world).2 =
        []
        ++ ["Uploaded file saved at: "
            +:+ path_join (UPLOAD_FOLDER "/srv/backend")
                  (secure_filename ascii_only (file_filename file));
            conversion_line (req_type pdf_request)
              (path_join (UPLOAD_FOLDER "/srv/backend")
                 (secure_filename ascii_only (file_filename file)))
              "/srv/backend/converted/scan-00000000000000000000000000000005.docx";
            "Sending file: "
            +:+ "/srv/backend/converted/scan-00000000000000000000000000000005.docx";
            "File size: " +:+ pretty (N.of_nat 2) +:+ " bytes"].
Proof.
  apply (success_log_reports_body_size ascii_only toy_pdf2docx toy_paragraphs
           toy_render "/srv/backend" toy_disk_error 5 pdf_request empty_world _
           "scan-00000000000000000000000000000005.docx" docx_mimetype
           [Byte.x25; Byte.x50]).
  vm_compute. reflexivity.
Defined.

Lemma server_errors_are_logged_witness :
  ∃ e, (toy_convert_file 5 bad_pdf_request empty_world).1
       = JsonError ("Conversion failed: " +:+ e) 500
       ∧ last (stdout (toy_convert_file 5 bad_pdf_request empty_world).2)
         = Some ("Error during conversion: " +:+ e).
Proof.
  apply (server_errors_are_logged ascii_only toy_pdf2docx toy_paragraphs toy_render
           "/srv/backend" toy_disk_error 5 bad_pdf_request empty_world).
  reflexivity.
Defined.

Lemma missing_artifact_is_reported_witness :
  (toy_convert_file 5 lost_pdf_request empty_world).1 =
    JsonError
      ("Conversion failed: Converted file not found: "
       +:+ "/srv/backend/converted/scan-00000000000000000000000000000005.docx") 500
  ∧ files (toy_convert_file 5 lost_pdf_request empty_world).2 =
      <["/srv/backend/uploads/scan.pdf" := []]> ∅.
Proof.
  apply (missing_artifact_is_reported ascii_only toy_pdf2docx toy_paragraphs toy_render
           "/srv/backend" toy_disk_error 5 lost_pdf_request empty_world (mkFile "scan.pdf" []));
    (reflexivity || by vm_compute).
Defined.

Lemma old_file_at_artifact_path_is_sent_witness :
  (toy_convert_file 5 lost_pdf_request stale_world).1 =
    SendFile "/srv/backend/converted/scan-00000000000000000000000000000005.docx"
      "scan-00000000000000000000000000000005.docx" docx_mimetype [Byte.x53].
Proof.
  apply (old_file_at_artifact_path_is_sent ascii_only toy_pdf2docx toy_paragraphs
           toy_render "/srv/backend" toy_disk_error 5 lost_pdf_request stale_world
           (mkFile "scan.pdf" []) [Byte.x53]);
    (reflexivity || by vm_compute).
Defined.
